(** * The interception worker of the WiFi portal (revision v5)

    A shallow embedding of the service worker script
    [src/unnamed/part_001] (first document, cache names tagged [v5]):
    the two classification helpers, the install, activate, fetch and
    message handlers, and the platform primitives they call.

    Platform primitives are modelled as follows.
    - [new URL(request.url)] is the record [URL] of the parsed components
      the script reads ([protocol], [hostname], [pathname], [search],
      [searchParams], [href]).
    - [new Response(body, init)] is [Response_new]: the status and the
      headers of [init], and, as the Fetch standard prescribes for a
      string body, a [Content-Type: text/plain;charset=UTF-8] header when
      [init] gives none.
    - [caches] (CacheStorage) is an ordered list of named stores, oldest
      first; every store is a finite map from the absolute request URL to
      the response kept for it. [Vary] matching is not modelled.
    - [fetch] is an oracle of the event: it resolves with a response or
      rejects with an error message. Every call is recorded in the trace of
      the world, as is every cache operation.
    - Cache operations do not fail: a lookup resolves with a response or
      with nothing.
    - Promise chains run to completion inside the handler: the detached
      [caches.open(..).then(cache => cache.put(..))] of the fetch handler
      is part of the handler's effect on the world. *)

From Stdlib Require Import String Ascii List Bool ZArith Lia.
From stdpp Require Import base option list gmap strings.

Open Scope string_scope.
Open Scope Z_scope.
Open Scope list_scope.

(** ** Strings as the script uses them *)

Module Str.

(** [s.startsWith(p)] *)
Definition startsWith (s p : string) : bool := String.prefix p s.

(** [s.includes(sub)] *)
Fixpoint includes (s sub : string) : bool :=
  String.prefix sub s ||
  match s with
  | EmptyString => false
  | String _ s' => includes s' sub
  end.

(** [s.endsWith(suf)] *)
Definition endsWith (s suf : string) : bool :=
  let n := String.length s in
  let m := String.length suf in
  (m <=? n)%nat && String.eqb (String.substring (n - m) m s) suf.

Definition lower_ascii (c : ascii) : ascii :=
  let n := nat_of_ascii c in
  if ((65 <=? n) && (n <=? 90))%nat then ascii_of_nat (n + 32) else c.

(** ASCII lower-casing, as header names are compared. *)
Fixpoint toLowerCase (s : string) : string :=
  match s with
  | EmptyString => EmptyString
  | String c s' => String (lower_ascii c) (toLowerCase s')
  end.

Definition is_space (c : ascii) : bool :=
  let n := nat_of_ascii c in ((n =? 32) || (n =? 9))%nat.

Fixpoint trim_left (s : string) : string :=
  match s with
  | String c s' => if is_space c then trim_left s' else s
  | EmptyString => EmptyString
  end.

(** Splits [s] at every occurrence of the character [sep]. *)
Fixpoint split_on (sep : ascii) (s : string) : list string :=
  match s with
  | EmptyString => [EmptyString]
  | String c s' =>
      if Ascii.eqb c sep then EmptyString :: split_on sep s'
      else match split_on sep s' with
           | [] => [String c EmptyString]
           | w :: ws => String c w :: ws
           end
  end.

Definition dq : string := String (ascii_of_nat 34) EmptyString.
Definition nl : string := String (ascii_of_nat 10) EmptyString.

Fixpoint join (sep : string) (l : list string) : string :=
  match l with
  | [] => EmptyString
  | [x] => x
  | x :: xs => x +:+ sep +:+ join sep xs
  end.

End Str.

(** ** Requests, URLs and responses *)

Record URL := mkURL {
  href : string;
  protocol : string;                       (* with the colon: [http:] *)
  hostname : string;
  pathname : string;
  search : string;                         (* empty, or from the [?] on *)
  searchParams : list (string * string)    (* decoded name/value pairs *)
}.

(** [url.searchParams.has(name)] *)
Definition searchParams_has (url : URL) (name : string) : bool :=
  existsb (fun kv => String.eqb (fst kv) name) (searchParams url).

Definition Headers := list (string * string).

(** [headers.get(name)]: names compare without regard to case. *)
Fixpoint headers_get (h : Headers) (name : string) : option string :=
  match h with
  | [] => None
  | (k, v) :: h' =>
      if String.eqb (Str.toLowerCase k) (Str.toLowerCase name) then Some v
      else headers_get h' name
  end.

Record Request := mkRequest {
  method : string;
  url : URL;
  req_headers : Headers
}.

Record Response := mkResponse {
  status : Z;
  resp_headers : Headers;
  body : string
}.

(** [new Response(body, { status, headers })] with a string body. The
    constructor appends the content type of the extracted body when the
    given headers name none. *)
Definition Response_new (b : string) (st : Z) (hs : Headers) : Response :=
  {| status := st;
     resp_headers :=
       match headers_get hs "Content-Type" with
       | Some _ => hs
       | None => hs ++ [("content-type", "text/plain;charset=UTF-8")]
       end;
     body := b |}.

(** The key under which a store keeps the response to a request. *)
Definition cache_key (request : Request) : string := href (url request).

(** ** Cache storage *)

Abbreviation Cache := (gmap string Response).

(** [caches]: the named stores in the order of their creation. *)
Definition CacheStorage := list (string * Cache).

Module Storage.

(** [caches.keys()] *)
Definition keys (cs : CacheStorage) : list string := List.map fst cs.

(** The store called [name], when there is one. *)
Fixpoint lookup (name : string) (cs : CacheStorage) : option Cache :=
  match cs with
  | [] => None
  | (n, c) :: cs' => if String.eqb n name then Some c else lookup name cs'
  end.

(** [caches.open(name)] creates the store when it is missing. *)
Definition open (name : string) (cs : CacheStorage) : CacheStorage :=
  match lookup name cs with
  | Some _ => cs
  | None => cs ++ [(name, ∅)]
  end.

(** [caches.match(key)]: the first store, in creation order, that has
    an entry for the key answers. *)
Fixpoint match_ (key : string) (cs : CacheStorage) : option Response :=
  match cs with
  | [] => None
  | (_, c) :: cs' =>
      match c !! key with
      | Some r => Some r
      | None => match_ key cs'
      end
  end.

(** [caches.delete(name)] *)
Definition delete (name : string) (cs : CacheStorage) : CacheStorage :=
  List.filter (fun nc => negb (String.eqb (fst nc) name)) cs.

(** [cache.put(key, r)] on the store called [name]: the entry of the key
    is replaced. *)
Definition put (name key : string) (r : Response) (cs : CacheStorage)
  : CacheStorage :=
  List.map (fun nc => if String.eqb (fst nc) name
                      then (fst nc, <[key := r]> (snd nc)) else nc) cs.

End Storage.

(** ** The world of the worker and its effects *)

Inductive Level := LLog | LError.

Inductive LogArg :=
| AStr (s : string)
| ANum (n : Z)
| AErr (message : string).

Record LogLine := mkLog { level : Level; text : string; args : list LogArg }.

Inductive Effect :=
| EFetch (u : string)
| ECachesOpen (name : string)
| ECachesMatch (key : string)
| ECachesKeys
| ECachesDelete (name : string)
| ECachePut (name key : string)
| ESkipWaiting
| EClientsClaim.

Record World := mkWorld {
  caches : CacheStorage;
  console : list LogLine;
  trace : list Effect
}.

(** The outcome of [fetch]: the promise resolves or rejects. *)
Inductive FetchResult :=
| Resolved (response : Response)
| Rejected (message : string).

Record Env := mkEnv {
  origin : string;                    (* [self.location.origin] *)
  network : string -> FetchResult     (* what the network answers *)
}.

(** Handlers are state transformers on the world. *)
Definition SW (A : Type) : Type := World -> A * World.

Definition ret {A} (a : A) : SW A := fun w => (a, w).

Definition bind {A B} (m : SW A) (k : A -> SW B) : SW B :=
  fun w => let (a, w') := m w in k a w'.

Declare Scope sw_scope.
Delimit Scope sw_scope with sw.
Notation "x <- m ;; k" := (bind m (fun x => k))
  (at level 100, m at next level, right associativity) : sw_scope.
Notation "m ;; k" := (bind m (fun _ => k))
  (at level 100, right associativity) : sw_scope.
Open Scope sw_scope.

Definition effect (e : Effect) : SW unit :=
  fun w => (tt, {| caches := caches w; console := console w;
                   trace := trace w ++ [e] |}).

Definition with_caches (f : CacheStorage -> CacheStorage) : SW unit :=
  fun w => (tt, {| caches := f (caches w); console := console w;
                   trace := trace w |}).

Definition console_log (t : string) (a : list LogArg) : SW unit :=
  fun w => (tt, {| caches := caches w;
                   console := console w ++ [mkLog LLog t a];
                   trace := trace w |}).

Definition console_error (t : string) (a : list LogArg) : SW unit :=
  fun w => (tt, {| caches := caches w;
                   console := console w ++ [mkLog LError t a];
                   trace := trace w |}).

Definition fetch (env : Env) (u : string) : SW FetchResult :=
  effect (EFetch u) ;; ret (network env u).

Definition caches_open (name : string) : SW unit :=
  effect (ECachesOpen name) ;; with_caches (Storage.open name).

Definition caches_match (key : string) : SW (option Response) :=
  effect (ECachesMatch key) ;; fun w => (Storage.match_ key (caches w), w).

Definition caches_keys : SW (list string) :=
  effect ECachesKeys ;; fun w => (Storage.keys (caches w), w).

Definition caches_delete (name : string) : SW unit :=
  effect (ECachesDelete name) ;; with_caches (Storage.delete name).

Definition cache_put (name key : string) (r : Response) : SW unit :=
  effect (ECachePut name key) ;; with_caches (Storage.put name key r).

Definition skipWaiting : SW unit := effect ESkipWaiting.

Definition clients_claim : SW unit := effect EClientsClaim.

(** Runs [f] on every element, left to right. *)
Fixpoint for_each {A} (f : A -> SW unit) (l : list A) : SW unit :=
  match l with
  | [] => ret tt
  | x :: l' => f x ;; for_each f l'
  end.

(** ** The constants of the script *)

Definition CACHE_NAME : string := "wifi-portal-v5".
Definition RUNTIME_CACHE : string := "wifi-portal-runtime-v5".

Definition STATIC_ASSETS : list string := ["/"; "/index.html"].

(** ** Hotspot detection helpers *)

Definition hotspotPaths : list string := ["/login"; "/logout"; "/status"].

Definition hotspotParams : list string :=
  ["dst"; "link-login"; "link-orig"; "link-logout"; "mac"; "id";
   "username"; "client-mac-address"].

Definition isHotspotPath (url : URL) : bool :=
  existsb (String.eqb (pathname url)) hotspotPaths.

Definition hasHotspotParam (url : URL) : bool :=
  searchParams_has url "dst" ||
  searchParams_has url "link-login" ||
  searchParams_has url "link-orig" ||
  searchParams_has url "link-logout" ||
  searchParams_has url "mac" ||
  searchParams_has url "id" ||
  searchParams_has url "username" ||
  searchParams_has url "client-mac-address".

Definition isHotspotURL (url : URL) : bool :=
  isHotspotPath url || hasHotspotParam url.

Definition probeHosts : list string :=
  ["msftconnecttest.com";
   "msftncsi.com";
   "captive.apple.com";
   "connectivitycheck.gstatic.com";
   "connectivitycheck.android.com";
   "clients3.google.com";
   "detectportal.firefox.com"].

Definition isCaptiveProbe (url : URL) : bool :=
  existsb (fun host => Str.includes (hostname url) host) probeHosts.

Definition staticExtensions : list string :=
  ["js"; "css"; "png"; "jpg"; "jpeg"; "svg"; "gif"; "webp"; "woff";
   "woff2"; "ttf"; "eot"; "ico"].

(** [/\.(js|css|...|ico)$/] matches a path that ends in a dot and one of
    the extensions. *)
Definition matchesStaticExtension (path : string) : bool :=
  existsb (fun ext => Str.endsWith path ("." +:+ ext)) staticExtensions.

(** [request.headers.get('accept')?.includes('text/html')]: a missing
    header makes the test fail. *)
Definition acceptsHtml (request : Request) : bool :=
  match headers_get (req_headers request) "accept" with
  | Some a => Str.includes a "text/html"
  | None => false
  end.

Definition isHtmlPage (request : Request) : bool :=
  acceptsHtml request ||
  String.eqb (pathname (url request)) "/" ||
  Str.endsWith (pathname (url request)) ".html".

(** ** Synthesized response bodies *)

Import Str.

(** The fallback document of the hotspot branch, line by line. *)
Definition LOADING_PAGE_LINES : list string :=
  [ "<!DOCTYPE html>";
    "<html>";
    "<head>";
    "  <meta charset=" +:+ dq +:+ "UTF-8" +:+ dq +:+ ">";
    "  <meta name=" +:+ dq +:+ "viewport" +:+ dq +:+ " content=" +:+ dq +:+ "width=device-width, initial-scale=1.0" +:+ dq +:+ ">";
    "  <title>WiFi Portal Loading...</title>";
    "  <style>";
    "    body { ";
    "      font-family: system-ui, -apple-system, sans-serif; ";
    "      text-align: center; ";
    "      padding: 50px 20px;";
    "      background: linear-gradient(135deg, #667eea 0%, #764ba2 100%);";
    "      color: white;";
    "    }";
    "    .container { max-width: 500px; margin: 0 auto; background: white; ";
    "                 color: #333; padding: 40px; border-radius: 20px; ";
    "                 box-shadow: 0 20px 60px rgba(0,0,0,0.3); }";
    "    .spinner { border: 4px solid #f3f3f3; border-top: 4px solid #667eea; ";
    "                border-radius: 50%; width: 50px; height: 50px; ";
    "                animation: spin 1s linear infinite; margin: 30px auto; }";
    "    @keyframes spin { 0% { transform: rotate(0deg); } 100% { transform: rotate(360deg); } }";
    "    .info { background: #f0f4ff; padding: 15px; border-radius: 10px; ";
    "            margin: 20px 0; font-size: 14px; text-align: left; }";
    "    .info strong { color: #667eea; }";
    "  </style>";
    "</head>";
    "<body>";
    "  <div class=" +:+ dq +:+ "container" +:+ dq +:+ ">";
    "    <h2>🌐 Loading WiFi Portal</h2>";
    "    <div class=" +:+ dq +:+ "spinner" +:+ dq +:+ "></div>";
    "    <p>Please wait while we set up your connection...</p>";
    "    <div class=" +:+ dq +:+ "info" +:+ dq +:+ ">";
    "      <strong>Connection Details:</strong><br>";
    "      <span id=" +:+ dq +:+ "details" +:+ dq +:+ ">Detecting device...</span>";
    "    </div>";
    "  </div>";
    "  <script>";
    "    console.log('🔍 [Fallback] URL:', window.location.href);";
    "    console.log('🔍 [Fallback] Params:', window.location.search);";
    "    ";
    "    const params = new URLSearchParams(window.location.search);";
    "    const mac = params.get('mac') || params.get('id') || params.get('username') || 'Detecting...';";
    "    const dst = params.get('dst') || params.get('link-orig') || 'Unknown';";
    "    ";
    "    document.getElementById('details').innerHTML = ";
    "      'MAC: ' + mac + '<br>' +";
    "      'Redirect: ' + (dst.length > 50 ? dst.substring(0, 50) + '...' : dst);";
    "    ";
    "    console.log('🔍 [Fallback] MAC:', mac);";
    "    ";
    "    // Reload after brief delay to let SW activate";
    "    setTimeout(() => {";
    "      console.log('🔄 [Fallback] Reloading...');";
    "      window.location.reload();";
    "    }, 2000);";
    "  </script>";
    "</body>";
    "</html>" ].

Definition LOADING_PAGE : string := join nl LOADING_PAGE_LINES.

Definition OFFLINE_PAGE : string := "<html><body><p>Offline</p></body></html>".

(** [JSON.stringify] of a string: quotes, backslashes and control
    characters are escaped. *)

Definition bs : string := String (ascii_of_nat 92) EmptyString.

Definition hex_digit (n : nat) : string :=
  String (ascii_of_nat (if (n <? 10)%nat then 48 + n else 87 + n)) EmptyString.

Definition JSON_escape_char (c : ascii) : string :=
  let n := nat_of_ascii c in
  if (n =? 34)%nat then bs +:+ dq
  else if (n =? 92)%nat then bs +:+ bs
  else if (n =? 8)%nat then bs +:+ "b"
  else if (n =? 9)%nat then bs +:+ "t"
  else if (n =? 10)%nat then bs +:+ "n"
  else if (n =? 12)%nat then bs +:+ "f"
  else if (n =? 13)%nat then bs +:+ "r"
  else if (n <? 32)%nat
       then bs +:+ "u00" +:+ hex_digit (n / 16) +:+ hex_digit (n mod 16)
  else String c EmptyString.

Fixpoint JSON_escape (s : string) : string :=
  match s with
  | EmptyString => EmptyString
  | String c s' => JSON_escape_char c +:+ JSON_escape s'
  end.

Definition JSON_string (s : string) : string := dq +:+ JSON_escape s +:+ dq.

(** [JSON.stringify({ success: false, error: .., details: .., url: .. })] *)
Definition API_ERROR_BODY (message u : string) : string :=
  "{" +:+ dq +:+ "success" +:+ dq +:+ ":false," +:+
  dq +:+ "error" +:+ dq +:+ ":" +:+
    JSON_string "Cannot connect to backend server" +:+ "," +:+
  dq +:+ "details" +:+ dq +:+ ":" +:+ JSON_string message +:+ "," +:+
  dq +:+ "url" +:+ dq +:+ ":" +:+ JSON_string u +:+ "}".

(** ** Install *)

(** The promise handed to [event.waitUntil] settles one way or the other. *)
Inductive Settled := Fulfilled | Failed.

Definition ok_status (r : Response) : bool :=
  (200 <=? status r) && (status r <=? 299).

(** [cache.addAll(paths)]: every path is fetched, relative to the origin of
    the worker; the entries are written only when every fetch resolved with
    an ok status other than 206, otherwise the promise rejects and nothing
    is written. *)
Fixpoint fetch_all (env : Env) (paths : list string)
  : SW (string + list (string * Response)) :=
  match paths with
  | [] => ret (inr [])
  | p :: ps =>
      r <- fetch env (origin env +:+ p) ;;
      rest <- fetch_all env ps ;;
      ret match r, rest with
          | Rejected m, _ => inl m
          | Resolved response, inl m =>
              if ok_status response && negb (status response =? 206)
              then inl m else inl "Request failed"
          | Resolved response, inr l =>
              if ok_status response && negb (status response =? 206)
              then inr ((origin env +:+ p, response) :: l)
              else inl "Request failed"
          end
  end.

Definition cache_addAll (env : Env) (name : string) (paths : list string)
  : SW (option string) :=
  r <- fetch_all env paths ;;
  match r with
  | inl m => ret (Some m)
  | inr l => for_each (fun kr => cache_put name (fst kr) (snd kr)) l ;;
             ret None
  end.

Definition onInstall (env : Env) : SW Settled :=
  console_log "[SW] Installing v5..." [] ;;
  caches_open CACHE_NAME ;;
  failure <- cache_addAll env CACHE_NAME STATIC_ASSETS ;;
  match failure with
  | None => skipWaiting ;; ret Fulfilled
  | Some m => console_error "[SW] Install failed:" [AErr m] ;; ret Fulfilled
  end.

(** ** Activate *)

Definition isCurrentCache (n : string) : bool :=
  String.eqb n CACHE_NAME || String.eqb n RUNTIME_CACHE.

Definition onActivate : SW Settled :=
  console_log "[SW] Activating v5..." [] ;;
  names <- caches_keys ;;
  let stale :=
    List.filter (fun n => negb (String.eqb n CACHE_NAME) &&
                          negb (String.eqb n RUNTIME_CACHE)) names in
  for_each (fun n => console_log "[SW] Deleting old cache:" [AStr n] ;;
                     caches_delete n) stale ;;
  clients_claim ;;
  ret Fulfilled.

(** ** Messages *)

Definition onMessage (data : string) : SW unit :=
  (if String.eqb data "skipWaiting" then skipWaiting else ret tt) ;;
  if String.eqb data "clearCache"
  then names <- caches_keys ;; for_each caches_delete names
  else ret tt.

(** ** Fetch *)

(** [caches.open(RUNTIME_CACHE).then(cache => cache.put(request, clone))] *)
Definition put_runtime (request : Request) (clone : Response) : SW unit :=
  caches_open RUNTIME_CACHE ;;
  cache_put RUNTIME_CACHE (cache_key request) clone.

(** The handler returns [None] when it returns without calling
    [event.respondWith], and the response it answers with otherwise. *)
Definition onFetch (env : Env) (request : Request) : SW (option Response) :=
  let url := url request in
  if negb (String.eqb (method request) "GET") then ret None else
  if negb (startsWith (protocol url) "http") then ret None else
  (if negb (String.eqb (search url) "")
   then console_log "[SW] Request with params:"
          [AStr (pathname url +:+ search url)]
   else ret tt) ;;
  (* 1. Hotspot URLs *)
  if isHotspotURL url then
    console_log "[SW] Hotspot URL detected:"
      [AStr (pathname url +:+ search url)] ;;
    r <- fetch env (href url) ;;
    match r with
    | Resolved response =>
        console_log "[SW] Network response received:"
          [ANum (status response)] ;;
        ret (Some response)
    | Rejected message =>
        console_log "[SW] Network blocked, serving index.html:"
          [AStr message] ;;
        cached <- caches_match (origin env +:+ "/index.html") ;;
        match cached with
        | Some c => ret (Some c)
        | None =>
            ret (Some (Response_new LOADING_PAGE 200
                   [("Content-Type", "text/html; charset=utf-8");
                    ("Cache-Control", "no-cache, no-store, must-revalidate")]))
        end
    end
  (* 2. Captive portal probes *)
  else if isCaptiveProbe url then
    console_log "[SW] Captive probe, bypassing:" [AStr (hostname url)] ;;
    r <- fetch env (href url) ;;
    match r with
    | Resolved response => ret (Some response)
    | Rejected _ => ret (Some (Response_new "" 503 []))
    end
  (* 3. API calls *)
  else if startsWith (pathname url) "/api/" then
    console_log "[SW] API call to:" [AStr (href url)] ;;
    r <- fetch env (href url) ;;
    match r with
    | Resolved response =>
        console_log "[SW] API response:"
          [ANum (status response); AStr (pathname url)] ;;
        ret (Some response)
    | Rejected message =>
        console_error "[SW] API call failed:" [AErr message] ;;
        console_error "[SW] Failed URL:" [AStr (href url)] ;;
        ret (Some (Response_new (API_ERROR_BODY message (href url)) 503
               [("Content-Type", "application/json")]))
    end
  (* 4. Static assets - cache first *)
  else if matchesStaticExtension (pathname url) ||
          startsWith (pathname url) "/assets/" then
    cached <- caches_match (cache_key request) ;;
    match cached with
    | Some c => console_log "[SW] Cache hit:" [AStr (pathname url)] ;;
                ret (Some c)
    | None =>
        r <- fetch env (href url) ;;
        match r with
        | Resolved response =>
            (if status response =? 200
             then put_runtime request response else ret tt) ;;
            ret (Some response)
        | Rejected _ => ret (Some (Response_new "Asset unavailable" 503 []))
        end
    end
  (* 5. HTML pages *)
  else if acceptsHtml request ||
          String.eqb (pathname url) "/" ||
          endsWith (pathname url) ".html" then
    r <- fetch env (href url) ;;
    match r with
    | Resolved response =>
        (if status response =? 200
         then put_runtime request response else ret tt) ;;
        ret (Some response)
    | Rejected _ =>
        cached <- caches_match (cache_key request) ;;
        cached <- match cached with
                  | Some c => ret (Some c)
                  | None => caches_match (origin env +:+ "/index.html")
                  end ;;
        match cached with
        | Some c => ret (Some c)
        | None => ret (Some (Response_new OFFLINE_PAGE 200
                         [("Content-Type", "text/html")]))
        end
    end
  (* 6. Default *)
  else
    r <- fetch env (href url) ;;
    match r with
    | Resolved response =>
        (if status response =? 200
         then put_runtime request response else ret tt) ;;
        ret (Some response)
    | Rejected _ =>
        cached <- caches_match (cache_key request) ;;
        match cached with
        | Some c => ret (Some c)
        | None => ret (Some (Response_new "" 503 []))
        end
    end.

(** ** Traffic classes

    The class of a request is the branch of [onFetch] that it takes: the
    guards below are those of the handler, in its order. *)

Inductive TrafficClass :=
| Ignored
| CaptivePortalLogin
| ConnectivityProbe
| BackendApiCall
| StaticAsset
| HtmlDocument
| Default.

Definition classify (request : Request) : TrafficClass :=
  let url := url request in
  if negb (String.eqb (method request) "GET") then Ignored
  else if negb (startsWith (protocol url) "http") then Ignored
  else if isHotspotURL url then CaptivePortalLogin
  else if isCaptiveProbe url then ConnectivityProbe
  else if startsWith (pathname url) "/api/" then BackendApiCall
  else if matchesStaticExtension (pathname url) ||
          startsWith (pathname url) "/assets/" then StaticAsset
  else if acceptsHtml request ||
          String.eqb (pathname url) "/" ||
          endsWith (pathname url) ".html" then HtmlDocument
  else Default.

(** ** Observations on a run *)

(** The effects that change a store. *)
Definition is_cache_write (e : Effect) : bool :=
  match e with
  | ECachesOpen _ | ECachePut _ _ | ECachesDelete _ => true
  | _ => false
  end.

(** The effects that consult or change the cache storage. *)
Definition is_cache_access (e : Effect) : bool :=
  match e with
  | ECachesOpen _ | ECachePut _ _ | ECachesDelete _
  | ECachesMatch _ | ECachesKeys => true
  | _ => false
  end.

Definition is_fetch (e : Effect) : bool :=
  match e with EFetch _ => true | _ => false end.

(** [performs m w es]: running [m] in [w] adds exactly the effects [es]
    to the trace. *)
Definition performs {A} (m : SW A) (w : World) (es : list Effect) : Prop :=
  trace (snd (m w)) = trace w ++ es.

(** ** Vocabulary of the properties *)

(** The classes whose strategy writes into the runtime store. *)
Definition caching_class (k : TrafficClass) : bool :=
  match k with
  | StaticAsset | HtmlDocument | Default => true
  | _ => false
  end.

(** Whether a seed of the manifest can be stored: its fetch resolves with
    an ok status other than 206. *)
Definition seed_ok (env : Env) (p : string) : bool :=
  match network env (origin env +:+ p) with
  | Resolved r => ok_status r && negb (status r =? 206)
  | Rejected _ => false
  end.

(** The keys under which the manifest is stored. *)
Definition seed_keys (env : Env) : list string :=
  List.map (fun p => origin env +:+ p) STATIC_ASSETS.

(** What a body is, judged by how it begins. *)
Inductive BodyKind := HtmlBody | JsonBody | TextBody.

Definition body_kind (b : string) : BodyKind :=
  if startsWith b "<" then HtmlBody
  else if startsWith b "{" then JsonBody
  else TextBody.

(** The media type of a [Content-Type] value: what stands before the
    first semicolon, in lower case. *)
Definition media_type (ct : string) : string :=
  match split_on ";" ct with
  | t :: _ => toLowerCase (trim_left t)
  | [] => ""
  end.

Definition content_type_fits (ct b : string) : bool :=
  String.eqb (media_type ct)
    match body_kind b with
    | HtmlBody => "text/html"
    | JsonBody => "application/json"
    | TextBody => "text/plain"
    end.

(** A response is well formed when its status is one a response can be
    constructed with and its [Content-Type] fits its body. *)
Definition well_formed (r : Response) : Prop :=
  200 <= status r <= 599 /\
  exists ct, headers_get (resp_headers r) "Content-Type" = Some ct /\
             content_type_fits ct (body r) = true.

(** The directives of a [Cache-Control] value. *)
Definition cache_directives (v : string) : list string :=
  List.map (fun d => toLowerCase (trim_left d)) (split_on "," v).

Definition has_directive (d v : string) : bool :=
  existsb (String.eqb d) (cache_directives v).

(** Every entry of the runtime store has status 200. *)
Definition runtime_entries_ok (cs : CacheStorage) : Prop :=
  forall c k r,
    In (RUNTIME_CACHE, c) cs -> c !! k = Some r -> status r = 200.

(** ** Sample requests *)

Module Sample.

Definition portal : string := "http://portal.example".

Definition env_up (r : Response) : Env :=
  {| origin := portal; network := fun _ => Resolved r |}.

Definition env_down : Env :=
  {| origin := portal; network := fun _ => Rejected "Failed to fetch" |}.

Definition page (st : Z) : Response :=
  {| status := st; resp_headers := [("content-type", "text/html")];
     body := "<html></html>" |}.

Definition fresh : World := {| caches := []; console := []; trace := [] |}.

(** A later version of the root document. *)
Definition newer : Response :=
  {| status := 200; resp_headers := [("content-type", "text/html")];
     body := "<html><body>v2</body></html>" |}.

(** A world whose runtime store keeps the root document. *)
Definition warm : World :=
  {| caches := [(RUNTIME_CACHE, {[ portal +:+ "/" := page 200 ]})];
     console := []; trace := [] |}.

Definition navigate (u : URL) : Request :=
  {| method := "GET"; url := u;
     req_headers := [("accept", "text/html,application/xhtml+xml")] |}.

Definition subresource (u : URL) : Request :=
  {| method := "GET"; url := u; req_headers := [("accept", "*/*")] |}.

(** [/login?dst=http%3A%2F%2Fexample.com] on the portal *)
Definition login_dst : URL :=
  {| href := portal +:+ "/login?dst=http%3A%2F%2Fexample.com";
     protocol := "http:"; hostname := "portal.example";
     pathname := "/login";
     search := "?dst=http%3A%2F%2Fexample.com";
     searchParams := [("dst", "http://example.com")] |}.

(** [/status?dst=http://example.com] on the portal *)
Definition status_dst : URL :=
  {| href := portal +:+ "/status?dst=http://example.com";
     protocol := "http:"; hostname := "portal.example";
     pathname := "/status";
     search := "?dst=http://example.com";
     searchParams := [("dst", "http://example.com")] |}.

(** A URL of the portal without a query. *)
Definition plain (path : string) : URL :=
  {| href := portal +:+ path; protocol := "http:";
     hostname := "portal.example"; pathname := path;
     search := ""; searchParams := [] |}.

(** A URL on another host, without a query. *)
Definition at_host (host path : string) : URL :=
  {| href := "http://" +:+ host +:+ path; protocol := "http:";
     hostname := host; pathname := path;
     search := ""; searchParams := [] |}.

End Sample.

Module SampleSchemes.



End SampleSchemes.

(** The stores that install leaves: the static store is opened, and when
    every seed can be stored each seed is written under its key. *)
Definition seeded_stores (env : Env) (cs : CacheStorage) : CacheStorage :=
  if forallb (seed_ok env) STATIC_ASSETS
  then fold_left
         (fun cs k => match network env k with
                      | Resolved r => Storage.put CACHE_NAME k r cs
                      | Rejected _ => cs
                      end)
         (seed_keys env) (Storage.open CACHE_NAME cs)
  else Storage.open CACHE_NAME cs.

(** * The first revision of the worker (v1)

    The second document of the same source file: the worker before the
    hotspot and probe branches were added. What is embedded is its fetch
    handler, with the constants it reads. The handler can hand
    [respondWith] a promise that resolves with nothing, so its result is
    an optional response inside the option that says whether
    [respondWith] was called. *)

Module V1.

Definition RUNTIME_CACHE : string := "wifi-portal-runtime-v1".

Definition staticExtensions : list string :=
  ["js"; "css"; "png"; "jpg"; "jpeg"; "svg"; "gif"; "webp"; "woff";
   "woff2"; "ttf"; "eot"].

Definition matchesStaticExtension (path : string) : bool :=
  existsb (fun ext => endsWith path ("." +:+ ext)) staticExtensions.

(** [JSON.stringify({ success: false, error: .. })] *)
Definition API_ERROR_BODY : string :=
  "{" +:+ dq +:+ "success" +:+ dq +:+ ":false," +:+
  dq +:+ "error" +:+ dq +:+ ":" +:+
    JSON_string "Network error. Please check your connection." +:+ "}".

Definition put_runtime (request : Request) (clone : Response) : SW unit :=
  caches_open RUNTIME_CACHE ;;
  cache_put RUNTIME_CACHE (cache_key request) clone.

Definition onFetch (env : Env) (request : Request)
  : SW (option (option Response)) :=
  let url := url request in
  (* Skip non-GET requests *)
  if negb (String.eqb (method request) "GET") then ret None else
  (* Skip chrome extensions and other protocols *)
  if negb (startsWith (protocol url) "http") then ret None else
  (* Strategy 1: Network-only for API calls *)
  if startsWith (pathname url) "/api/" then
    r <- fetch env (href url) ;;
    match r with
    | Resolved response => ret (Some (Some response))
    | Rejected message =>
        console_error "[SW] API fetch failed:" [AErr message] ;;
        ret (Some (Some (Response_new API_ERROR_BODY 503
                           [("Content-Type", "application/json")])))
    end
  (* Strategy 2: Cache-first for static assets *)
  else if matchesStaticExtension (pathname url) ||
          startsWith (pathname url) "/assets/" then
    cachedResponse <- caches_match (cache_key request) ;;
    match cachedResponse with
    | Some c =>
        console_log "[SW] Serving from cache:" [AStr (pathname url)] ;;
        ret (Some (Some c))
    | None =>
        r <- fetch env (href url) ;;
        match r with
        | Resolved networkResponse =>
            (if status networkResponse =? 200
             then caches_open RUNTIME_CACHE ;;
                  console_log "[SW] Caching new resource:"
                    [AStr (pathname url)] ;;
                  cache_put RUNTIME_CACHE (cache_key request) networkResponse
             else ret tt) ;;
            ret (Some (Some networkResponse))
        | Rejected message =>
            console_error "[SW] Fetch failed for asset:"
              [AStr (pathname url); AErr message] ;;
            ret (Some (Some (Response_new "Offline - Asset not available"
                               503 [])))
        end
    end
  (* Strategy 3: Network-first for HTML *)
  else if acceptsHtml request ||
          String.eqb (pathname url) "/" ||
          endsWith (pathname url) ".html" then
    r <- fetch env (href url) ;;
    match r with
    | Resolved networkResponse =>
        (if status networkResponse =? 200
         then put_runtime request networkResponse else ret tt) ;;
        ret (Some (Some networkResponse))
    | Rejected _ =>
        console_log "[SW] Network failed, serving cached HTML" [] ;;
        cachedResponse <- caches_match (cache_key request) ;;
        match cachedResponse with
        | Some c => ret (Some (Some c))
        | None =>
            fallback <- caches_match (origin env +:+ "/index.html") ;;
            ret (Some fallback)
        end
    end
  (* Default: Network-first for everything else *)
  else
    r <- fetch env (href url) ;;
    match r with
    | Resolved response =>
        (if status response =? 200
         then put_runtime request response else ret tt) ;;
        ret (Some (Some response))
    | Rejected _ =>
        cached <- caches_match (cache_key request) ;;
        ret (Some cached)
    end.

(** The branch of [V1.onFetch] that a request takes. *)
Definition classify (request : Request) : TrafficClass :=
  let url := url request in
  if negb (String.eqb (method request) "GET") then Ignored
  else if negb (startsWith (protocol url) "http") then Ignored
  else if startsWith (pathname url) "/api/" then BackendApiCall
  else if matchesStaticExtension (pathname url) ||
          startsWith (pathname url) "/assets/" then StaticAsset
  else if acceptsHtml request ||
          String.eqb (pathname url) "/" ||
          endsWith (pathname url) ".html" then HtmlDocument
  else Default.

End V1.

(** * The manifest generator

    The build script that rewrites [STATIC_ASSETS]: it reads the built
    [index.html] and collects what its pattern captures: a quote, single
    or double, then in a group [/assets/] and one or more characters that
    are no quotes, then a quote again. The embedding is the collection of
    the captures; reading and writing the files is left out.

    A match starts at a quote, goes on with [/assets/] and the longest run
    of at least one character that is no quote, and ends with the quote
    that stops the run: a run that the end of the text stops gives no
    match, since every shorter run is followed by a character that is no
    quote. The search goes on after the closing quote of a match, and at
    the next character when there is no match at a position. *)

Module AssetManifest.

(** The double and the single quote. *)
Definition is_quote (c : ascii) : bool :=
  let n := nat_of_ascii c in ((n =? 34) || (n =? 39))%nat.

(** The longest run of characters that are no quotes at the head of [s],
    and the rest of [s]. *)
Fixpoint take_run (s : string) : string * string :=
  match s with
  | EmptyString => (EmptyString, EmptyString)
  | String c s' =>
      if is_quote c then (EmptyString, s)
      else let (run, rest) := take_run s' in (String c run, rest)
  end.

(** [s] without [p] at its head, when it begins with [p]. *)
Fixpoint drop_prefix (p s : string) : option string :=
  match p, s with
  | EmptyString, _ => Some s
  | String a p', String b s' =>
      if Ascii.eqb a b then drop_prefix p' s' else None
  | String _ _, EmptyString => None
  end.

(** The match that starts at a quote, given the text [s] after that
    quote: the capture and the text after the closing quote. *)
Definition match_here (s : string) : option (string * string) :=
  match drop_prefix "/assets/" s with
  | None => None
  | Some t =>
      match take_run t with
      | (String c run, String _ rest) =>
          Some ("/assets/" +:+ String c run, rest)
      | _ => None
      end
  end.

(** [matchAll]: the captures of the matches, from left to right. The
    fuel bounds the number of positions tried; the length of the text is
    enough. *)
Fixpoint scan (fuel : nat) (s : string) : list string :=
  match fuel with
  | O => []
  | S fuel' =>
      match s with
      | EmptyString => []
      | String c s' =>
          if is_quote c
          then match match_here s' with
               | Some (capture, rest) => capture :: scan fuel' rest
               | None => scan fuel' s'
               end
          else scan fuel' s'
      end
  end.

(** [assets], as the script has it when its loop ends. *)
Definition assets (indexHtml : string) : list string :=
  ["/"; "/index.html"] ++ scan (String.length indexHtml) indexHtml.

(** A text without quotes. *)
Fixpoint quote_free (s : string) : bool :=
  match s with
  | EmptyString => true
  | String c s' => negb (is_quote c) && quote_free s'
  end.

(** A path that the pattern can capture: [/assets/] and at least one
    more character, none of them a quote. *)
Definition asset_path (p : string) : bool :=
  match drop_prefix "/assets/" p with
  | Some (String c r) => quote_free (String c r)
  | _ => false
  end.

(** A document that refers to the paths of [items] one after the other:
    before each path some text without quotes and an opening quote, after
    it a closing quote; [tail] ends the document. *)
Fixpoint document (items : list (string * (ascii * ascii) * string))
         (tail : string) : string :=
  match items with
  | [] => tail
  | (text, (q1, q2), p) :: items' =>
      text +:+ String q1 (p +:+ String q2 (document items' tail))
  end.

End AssetManifest.

(** * Properties *)

Arguments LOADING_PAGE : simpl never.
Arguments OFFLINE_PAGE : simpl never.
Arguments API_ERROR_BODY : simpl never.
Arguments Response_new : simpl never.

(** ** Running handlers symbolically *)

Ltac sw_unfold :=
  unfold performs, put_runtime, fetch, caches_open, caches_match,
    caches_keys, caches_delete, cache_put, skipWaiting, clients_claim,
    console_log, console_error, effect, with_caches, bind, ret in *.

Ltac split_branch :=
  match goal with
  | |- context [if ?b then _ else _] => destruct b eqn:?
  | |- context [match ?x with Resolved _ => _ | Rejected _ => _ end] =>
      destruct x eqn:?
  | |- context [match ?x with Some _ => _ | None => _ end] =>
      destruct x eqn:?
  end.

Ltac run_fetch :=
  unfold onFetch, classify; sw_unfold;
  repeat (split_branch; cbn [fst snd caches console trace] in *).

(** Exhibits the effects added to a trace. *)
Ltac show_effects :=
  first
    [ exists []; split; [symmetry; apply app_nil_r | reflexivity]
    | rewrite <- ?app_assoc; eexists; split; [reflexivity | reflexivity] ].

(** ** The string tests on sample values *)

Example includes_inside :
  includes "www.msftconnecttest.com" "msftconnecttest.com" = true.
Proof. reflexivity. Qed.

Example includes_absent : includes "portal.example" "captive.apple.com" = false.
Proof. reflexivity. Qed.

Example endsWith_extension : endsWith "/assets/app-abc123.js" ".js" = true.
Proof. reflexivity. Qed.

Example endsWith_longer_suffix : endsWith "js" ".js" = false.
Proof. reflexivity. Qed.

Example endsWith_inner : endsWith "/app.js.map" ".js" = false.
Proof. reflexivity. Qed.

Example startsWith_https : startsWith "https:" "http" = true.
Proof. reflexivity. Qed.

Example headers_get_any_case :
  headers_get [("Accept", "text/html")] "accept" = Some "text/html".
Proof. reflexivity. Qed.

Example JSON_string_escapes :
  JSON_string ("a" +:+ dq +:+ "b" +:+ nl) =
  dq +:+ "a" +:+ bs +:+ dq +:+ "b" +:+ bs +:+ "n" +:+ dq.
Proof. reflexivity. Qed.

(** ** The classifier on sample requests *)

Example classify_login_dst :
  classify (Sample.navigate Sample.login_dst) = CaptivePortalLogin.
Proof. reflexivity. Qed.

Example classify_login_html :
  classify (Sample.navigate (Sample.plain "/login.html")) = HtmlDocument.
Proof. reflexivity. Qed.

Example classify_asset :
  classify (Sample.subresource (Sample.plain "/assets/app-abc123.js"))
  = StaticAsset.
Proof. reflexivity. Qed.

Example classify_favicon :
  classify (Sample.subresource (Sample.plain "/favicon.ico")) = StaticAsset.
Proof. reflexivity. Qed.

Example classify_probe :
  classify (Sample.subresource
              (Sample.at_host "connectivitycheck.gstatic.com" "/generate_204"))
  = ConnectivityProbe.
Proof. reflexivity. Qed.

Example classify_api :
  classify (Sample.subresource (Sample.plain "/api/packages"))
  = BackendApiCall.
Proof. reflexivity. Qed.

Example classify_default :
  classify (Sample.subresource (Sample.plain "/manifest.json")) = Default.
Proof. reflexivity. Qed.

(** ** Facts about the storage model *)

Section StorageFacts.

Implicit Types (cs : CacheStorage) (c : Cache) (r : Response).

Lemma lookup_In name cs c :
  Storage.lookup name cs = Some c -> In (name, c) cs.
Proof.
  induction cs as [|[n c0] cs IH]; simpl; [discriminate|].
  destruct (String.eqb n name) eqn:E.
  - apply String.eqb_eq in E. intros [= ->]. subst. now left.
  - intros H. right. auto.
Qed.

Lemma In_open name cs n c :
  In (n, c) (Storage.open name cs) <->
  In (n, c) cs \/
  (Storage.lookup name cs = None /\ n = name /\ c = ∅).
Proof.
  unfold Storage.open. destruct (Storage.lookup name cs) eqn:E.
  - split; [tauto | intros [H | [H _]]; [exact H | discriminate]].
  - rewrite in_app_iff. simpl. split.
    + intros [H | [H | []]]; [tauto | inversion H; subst; tauto].
    + intros [H | (_ & -> & ->)]; tauto.
Qed.

Lemma In_put name key r cs n c' :
  In (n, c') (Storage.put name key r cs) <->
  exists c, In (n, c) cs /\
            c' = if String.eqb n name then <[key := r]> c else c.
Proof.
  unfold Storage.put. rewrite in_map_iff. split.
  - intros [[n0 c0] [E H]]. simpl in E.
    destruct (String.eqb n0 name) eqn:En; inversion E; subst.
    + exists c0. rewrite En. tauto.
    + exists c'. rewrite En. tauto.
  - intros [c [H ->]]. exists (n, c). simpl.
    destruct (String.eqb n name); tauto.
Qed.

Lemma lookup_open_put name key r cs :
  exists c, Storage.lookup name
              (Storage.put name key r (Storage.open name cs)) = Some c
            /\ c !! key = Some r.
Proof.
  unfold Storage.open. destruct (Storage.lookup name cs) as [c0|] eqn:E.
  - induction cs as [|[n c1] cs IH]; simpl in *; [discriminate|].
    destruct (String.eqb n name) eqn:En; simpl; rewrite En.
    + eexists. split; [reflexivity | apply lookup_insert_eq].
    + auto.
  - induction cs as [|[n c1] cs IH]; simpl in *.
    + rewrite String.eqb_refl. simpl. rewrite String.eqb_refl.
      eexists. split; [reflexivity | apply lookup_insert_eq].
    + destruct (String.eqb n name) eqn:En; [discriminate|].
      simpl. rewrite En. auto.
Qed.

(** A response stored under a key in some store is found by
    [caches.match]. *)
Lemma match_finds key cs n c r :
  In (n, c) cs -> c !! key = Some r ->
  exists r', Storage.match_ key cs = Some r'.
Proof.
  induction cs as [|[n0 c0] cs IH]; simpl; [tauto|].
  intros [E | H] Hk.
  - inversion E; subst. rewrite Hk. eauto.
  - destruct (c0 !! key); eauto.
Qed.

(** After a miss in every store, the entry written into a store is the
    one [caches.match] finds. *)
Lemma match_after_put name key r cs :
  Storage.match_ key cs = None ->
  Storage.match_ key (Storage.put name key r (Storage.open name cs))
  = Some r.
Proof.
  unfold Storage.open. destruct (Storage.lookup name cs) as [c0|] eqn:E.
  - revert E. induction cs as [|[n c1] cs IH]; simpl; [discriminate|].
    destruct (c1 !! key) eqn:Hk; [discriminate|].
    destruct (String.eqb n name) eqn:En; simpl.
    + intros _ _. now rewrite lookup_insert_eq.
    + intros E Hm. rewrite Hk. auto.
  - revert E. induction cs as [|[n c1] cs IH]; simpl.
    + intros _ _. rewrite String.eqb_refl. simpl.
      now rewrite lookup_insert_eq.
    + destruct (c1 !! key) eqn:Hk; [discriminate|].
      destruct (String.eqb n name) eqn:En; [discriminate|].
      simpl. intros E Hm. rewrite Hk. auto.
Qed.

Lemma lookup_put n name key r cs :
  Storage.lookup n (Storage.put name key r cs) =
  (fun c => if String.eqb n name then <[key := r]> c else c)
    <$> Storage.lookup n cs.
Proof.
  induction cs as [|[n0 c0] cs IH]; simpl; [reflexivity|].
  destruct (String.eqb n0 name) eqn:E0; simpl;
    destruct (String.eqb n0 n) eqn:E1; simpl; auto.
  - apply String.eqb_eq in E0, E1. subst.
    now rewrite String.eqb_refl.
  - apply String.eqb_eq in E1. subst. now rewrite E0.
Qed.

Lemma lookup_open_same name cs :
  Storage.lookup name (Storage.open name cs) =
  Some (default ∅ (Storage.lookup name cs)).
Proof.
  unfold Storage.open.
  destruct (Storage.lookup name cs) as [c|] eqn:E; simpl; [exact E|].
  induction cs as [|[n0 c0] cs IH]; simpl in *.
  - now rewrite String.eqb_refl.
  - destruct (String.eqb n0 name); [discriminate | auto].
Qed.

Lemma append_inj_l (o a b : string) : o +:+ a = o +:+ b -> a = b.
Proof. induction o; simpl; [auto | intros [= H]; auto]. Qed.

End StorageFacts.

(** ** What the fetch handler does to the stores *)

Section FetchStores.

Variables (env : Env) (request : Request) (w : World).

(** The handler leaves the stores alone, or it writes the network's
    response of status 200 into the runtime store under the request's
    key, and then the request is of a caching class. *)
Lemma onFetch_caches :
  caches (snd (onFetch env request w)) = caches w \/
  exists r,
    network env (href (url request)) = Resolved r /\
    status r = 200 /\
    caching_class (classify request) = true /\
    caches (snd (onFetch env request w)) =
      Storage.put RUNTIME_CACHE (cache_key request) r
        (Storage.open RUNTIME_CACHE (caches w)).
Proof.
  run_fetch; try (left; reflexivity);
    right; eexists; (split; [reflexivity|]);
    (split; [now apply Z.eqb_eq|]); split; reflexivity.
Qed.

(** Requests of the other classes never change the stores. *)
Lemma onFetch_caches_sensitive :
  caching_class (classify request) = false ->
  caches (snd (onFetch env request w)) = caches w.
Proof.
  intros H. destruct onFetch_caches as [E | (r & _ & _ & C & _)].
  - exact E.
  - congruence.
Qed.

(** Nor do they open, fill or delete a store on the way. *)
Lemma onFetch_effects_sensitive :
  caching_class (classify request) = false ->
  exists es, performs (onFetch env request) w es /\
             existsb is_cache_write es = false.
Proof.
  run_fetch; intros; try discriminate; show_effects.
Qed.

End FetchStores.

(** C1: a GET request classified as captive-portal login, as a
    connectivity probe or as a backend API call never makes the fetch
    handler write into a store, whether the network answers or fails: the
    stores are the same afterwards and no cache write is among the effects
    of the handler. *)
Theorem sensitive_classes_never_cached env request w :
  classify request = CaptivePortalLogin \/
  classify request = ConnectivityProbe \/
  classify request = BackendApiCall ->
  caches (snd (onFetch env request w)) = caches w /\
  exists es, performs (onFetch env request) w es /\
             existsb is_cache_write es = false.
Proof.
  intros H.
  assert (C : caching_class (classify request) = false)
    by (destruct H as [-> | [-> | ->]]; reflexivity).
  split.
  - now apply onFetch_caches_sensitive.
  - now apply onFetch_effects_sensitive.
Qed.

(** The login redirect, answered by the network, leaves the fresh world
    without a store. *)
Lemma sensitive_classes_never_cached_witness :
  classify (Sample.navigate Sample.login_dst) = CaptivePortalLogin /\
  caches (snd (onFetch (Sample.env_up (Sample.page 200))
                 (Sample.navigate Sample.login_dst) Sample.fresh))
  = caches Sample.fresh.
Proof.
  split; [reflexivity|].
  apply (sensitive_classes_never_cached
           (Sample.env_up (Sample.page 200))
           (Sample.navigate Sample.login_dst) Sample.fresh).
  left. reflexivity.
Defined.

(** ** Classification order *)

(** The hotspot parameters are the eight names of the table. *)
Lemma hasHotspotParam_spec url :
  hasHotspotParam url = existsb (searchParams_has url) hotspotParams.
Proof.
  unfold hasHotspotParam, hotspotParams. simpl.
  repeat (destruct (searchParams_has url _); [reflexivity|]). reflexivity.
Qed.

(** A hotspot URL is a login, whatever the later guards say of it. *)
Lemma classify_hotspot request :
  method request = "GET" ->
  startsWith (protocol (url request)) "http" = true ->
  isHotspotURL (url request) = true ->
  classify request = CaptivePortalLogin.
Proof.
  intros Hm Hp Hh. unfold classify. now rewrite Hm, Hp, Hh.
Qed.

(** C2 does not hold as stated: [/login.html] without a
    hotspot parameter is none of the three login paths, so the request
    reaches the HTML branch. *)
Lemma login_html_is_html_document :
  let request := Sample.navigate (Sample.plain "/login.html") in
  method request = "GET" /\
  pathname (url request) = "/login.html" /\
  isHotspotURL (url request) = false /\
  classify request = HtmlDocument /\
  classify request <> CaptivePortalLogin.
Proof. repeat split; try reflexivity. discriminate. Qed.

(** C2, as amended: among GET requests over http(s) the hotspot test is
    made first and wins. A request to [/status] is a captive-portal login,
    with [dst] or without, whatever the HTML test says of it. A request to
    [/login.html] is a captive-portal login exactly when it carries a
    hotspot parameter; without one, and away from the probe hosts, it is an
    HTML document. *)
Theorem hotspot_match_wins request :
  method request = "GET" ->
  startsWith (protocol (url request)) "http" = true ->
  (isHotspotURL (url request) = true ->
   classify request = CaptivePortalLogin) /\
  (pathname (url request) = "/status" ->
   classify request = CaptivePortalLogin) /\
  (pathname (url request) = "/login.html" ->
   (classify request = CaptivePortalLogin <->
    hasHotspotParam (url request) = true) /\
   (hasHotspotParam (url request) = false ->
    isCaptiveProbe (url request) = false ->
    classify request = HtmlDocument)).
Proof.
  intros Hm Hp. split; [|split].
  - now apply classify_hotspot.
  - intros Hs. apply classify_hotspot; auto.
    unfold isHotspotURL, isHotspotPath. now rewrite Hs.
  - intros Hl.
    assert (E : isHotspotURL (url request) = hasHotspotParam (url request))
      by (unfold isHotspotURL, isHotspotPath; now rewrite Hl).
    unfold classify. rewrite Hm, Hp, E, Hl.
    split.
    + destruct (hasHotspotParam (url request)); [tauto|].
      split; [|discriminate].
      destruct (isCaptiveProbe (url request)); [discriminate|].
      destruct (acceptsHtml request); vm_compute; discriminate.
    + intros -> ->.
      destruct (acceptsHtml request); reflexivity.
Qed.

(** A navigation to [/status?dst=..] satisfies the HTML test and is a
    login. *)
Lemma hotspot_match_wins_witness :
  classify (Sample.navigate Sample.status_dst) = CaptivePortalLogin /\
  isHtmlPage (Sample.navigate Sample.status_dst) = true.
Proof.
  split; [|reflexivity].
  destruct (hotspot_match_wins (Sample.navigate Sample.status_dst)
              eq_refl eq_refl) as [_ [Hstatus _]].
  apply Hstatus. reflexivity.
Defined.

(** ** Requests the handler leaves alone *)




(** Every other request is answered. *)
Lemma answered_requests env request w :
  classify request <> Ignored ->
  exists r, fst (onFetch env request w) = Some r.
Proof.
  run_fetch; intros; try congruence; eauto.
Qed.

(** ** Probe hosts *)

Lemma isCaptiveProbe_spec url :
  isCaptiveProbe url = true <->
  exists host, In host probeHosts /\ includes (hostname url) host = true.
Proof. unfold isCaptiveProbe. apply existsb_exists. Qed.

(** C10 does not hold as stated: the hotspot test comes
    first, so a GET request for [/login] on a host that contains a probe
    domain is answered by the hotspot branch, here with the loading page
    and status 200. *)
Lemma probe_host_on_login_path_gets_loading_page :
  let request :=
    Sample.navigate (Sample.at_host "msftncsi.com.evil.example" "/login") in
  isCaptiveProbe (url request) = true /\
  fst (onFetch Sample.env_down request Sample.fresh)
  = Some (Response_new LOADING_PAGE 200
            [("Content-Type", "text/html; charset=utf-8");
             ("Cache-Control", "no-cache, no-store, must-revalidate")]) /\
  fst (onFetch Sample.env_down request Sample.fresh)
  <> Some (Response_new "" 503 []).
Proof. repeat split; try reflexivity. discriminate. Qed.

(** C10, as amended: the probe test is substring containment, so a host
    name that contains one of the seven probe domains satisfies
    [isCaptiveProbe] without being equal to any of them. A GET request over
    http(s) to such a host that is not a hotspot URL is a connectivity
    probe: the network's response is passed on, a failed fetch is answered
    with an empty 503, and no store is consulted or changed. *)
Theorem probe_match_is_substring env request w host :
  In host probeHosts ->
  includes (hostname (url request)) host = true ->
  isCaptiveProbe (url request) = true /\
  (method request = "GET" ->
   startsWith (protocol (url request)) "http" = true ->
   isHotspotURL (url request) = false ->
   classify request = ConnectivityProbe /\
   (forall response,
       network env (href (url request)) = Resolved response ->
       fst (onFetch env request w) = Some response) /\
   (forall m,
       network env (href (url request)) = Rejected m ->
       fst (onFetch env request w) = Some (Response_new "" 503 []) /\
       status (Response_new "" 503 []) = 503 /\
       body (Response_new "" 503 []) = "") /\
   caches (snd (onFetch env request w)) = caches w /\
   exists es, performs (onFetch env request) w es /\
              existsb is_cache_access es = false).
Proof.
  intros Hin Hinc.
  assert (Hp : isCaptiveProbe (url request) = true)
    by (apply isCaptiveProbe_spec; eauto).
  split; [exact Hp|].
  intros Hm Hs Hh. apply String.eqb_eq in Hm.
  unfold classify, onFetch. rewrite Hm, Hs, Hh, Hp. cbn [negb].
  sw_unfold.
  destruct (negb (search (url request) =? "")%string);
    destruct (network env (href (url request)));
    cbn [fst snd caches console trace];
    (split; [reflexivity|]);
    (split; [intros; congruence|]);
    (split; [intros; (discriminate || (repeat split; reflexivity))|]);
    (split; [reflexivity | show_effects]).
Qed.

(** [msftncsi.com.evil.example] is no probe domain and is treated as
    one. *)
Lemma probe_match_is_substring_witness :
  let request :=
    Sample.subresource
      (Sample.at_host "msftncsi.com.evil.example" "/ncsi.txt") in
  ~ In (hostname (url request)) probeHosts /\
  isCaptiveProbe (url request) = true /\
  fst (onFetch Sample.env_down request Sample.fresh)
  = Some (Response_new "" 503 []).
Proof.
  intros request.
  assert (Hin : In "msftncsi.com" probeHosts) by (simpl; tauto).
  destruct (probe_match_is_substring Sample.env_down request Sample.fresh
              "msftncsi.com" Hin eq_refl) as [Hp Hrun].
  destruct (Hrun eq_refl eq_refl eq_refl) as (_ & _ & Hdown & _).
  split; [|split].
  - simpl. intros H. repeat (destruct H as [H | H]; [discriminate|]).
    exact H.
  - exact Hp.
  - apply (Hdown "Failed to fetch"). reflexivity.
Defined.

(** ** Install *)

(** C3 does not hold as stated: when the network is down the
    seeding fails, the failure is logged and the promise handed to
    [waitUntil] is fulfilled, and [skipWaiting] is not called: it sits in
    the [then] that a rejection skips. *)
Lemma failed_install_does_not_skip_waiting :
  fst (onInstall Sample.env_down Sample.fresh) = Fulfilled /\
  console (snd (onInstall Sample.env_down Sample.fresh))
  = [mkLog LLog "[SW] Installing v5..." [];
     mkLog LError "[SW] Install failed:" [AErr "Failed to fetch"]] /\
  ~ In ESkipWaiting (trace (snd (onInstall Sample.env_down Sample.fresh))).
Proof.
  repeat split; try reflexivity.
  simpl. intros H. repeat (destruct H as [H | H]; [discriminate|]). exact H.
Qed.

(** C3, as amended: the promise of the install handler is always
    fulfilled. When every seed can be stored, the manifest is written into
    the static store and [skipWaiting] is called last. When a seed fails,
    the error is logged, nothing is written, and the handler ends without
    calling [skipWaiting]. *)
Theorem install_best_effort env w :
  fst (onInstall env w) = Fulfilled /\
  (forallb (seed_ok env) STATIC_ASSETS = true ->
   performs (onInstall env) w
     (ECachesOpen CACHE_NAME :: List.map EFetch (seed_keys env) ++
      List.map (ECachePut CACHE_NAME) (seed_keys env) ++ [ESkipWaiting]) /\
   console (snd (onInstall env w))
   = console w ++ [mkLog LLog "[SW] Installing v5..." []] /\
   exists c,
     Storage.lookup CACHE_NAME (caches (snd (onInstall env w))) = Some c /\
     forall k r, In k (seed_keys env) -> network env k = Resolved r ->
                 c !! k = Some r) /\
  (forallb (seed_ok env) STATIC_ASSETS = false ->
   performs (onInstall env) w
     (ECachesOpen CACHE_NAME :: List.map EFetch (seed_keys env)) /\
   (exists m,
       console (snd (onInstall env w))
       = console w ++ [mkLog LLog "[SW] Installing v5..." [];
                       mkLog LError "[SW] Install failed:" [AErr m]]) /\
   caches (snd (onInstall env w)) = Storage.open CACHE_NAME (caches w)).
Proof.
  unfold onInstall, cache_addAll, seed_keys, STATIC_ASSETS, seed_ok.
  cbn [fetch_all forallb List.map]. sw_unfold.
  destruct (network env (origin env +:+ "/")) as [r1|m1] eqn:E1;
  destruct (network env (origin env +:+ "/index.html")) as [r2|m2] eqn:E2;
  try destruct (ok_status r1 && negb (status r1 =? 206));
  try destruct (ok_status r2 && negb (status r2 =? 206));
  cbn [fst snd caches console trace for_each andb];
  sw_unfold; cbn [fst snd caches console trace];
  (split; [reflexivity|]); split; intros Hok; try discriminate.
  (* every seed stored *)
  1: { split; [rewrite <- !app_assoc; reflexivity|].
       split; [reflexivity|].
       rewrite !lookup_put, lookup_open_same, String.eqb_refl. simpl.
       eexists. split; [reflexivity|].
       intros k r [<- | [<- | []]] Hk.
       - rewrite E1 in Hk. injection Hk as <-.
         rewrite lookup_insert_ne, lookup_insert_eq; [reflexivity|].
         intros H. apply append_inj_l in H. discriminate.
       - rewrite E2 in Hk. injection Hk as <-. apply lookup_insert_eq. }
  (* a seed failed *)
  all: split; [rewrite <- !app_assoc; reflexivity|];
       split; [eexists; rewrite <- app_assoc; reflexivity | reflexivity].
Qed.

(** With the network up, install fetches and stores both seeds and then
    calls [skipWaiting]. *)
Lemma install_best_effort_witness :
  forallb (seed_ok (Sample.env_up (Sample.page 200))) STATIC_ASSETS = true /\
  performs (onInstall (Sample.env_up (Sample.page 200))) Sample.fresh
    [ECachesOpen CACHE_NAME;
     EFetch "http://portal.example/";
     EFetch "http://portal.example/index.html";
     ECachePut CACHE_NAME "http://portal.example/";
     ECachePut CACHE_NAME "http://portal.example/index.html";
     ESkipWaiting].
Proof.
  split; [reflexivity|].
  destruct (install_best_effort (Sample.env_up (Sample.page 200))
              Sample.fresh) as (_ & Hgood & _).
  apply Hgood. reflexivity.
Defined.

(** ** Activate *)

Section Activation.

Implicit Types (cs : CacheStorage) (names : list string).

(** Deleting a list of names keeps the stores whose name is not in it. *)
Lemma fold_delete names : forall cs,
  fold_left (fun cs n => Storage.delete n cs) names cs =
  List.filter (fun nc => negb (existsb (String.eqb (fst nc)) names)) cs.
Proof.
  induction names as [|n names IH]; intros cs; simpl.
  - induction cs as [|nc cs IHcs]; simpl; [reflexivity | now f_equal].
  - rewrite IH. unfold Storage.delete.
    induction cs as [|nc cs IHcs]; simpl; [reflexivity|].
    destruct (String.eqb (fst nc) n); simpl.
    + exact IHcs.
    + destruct (existsb (String.eqb (fst nc)) names); simpl;
        [exact IHcs | now f_equal].
Qed.

(** A loop whose body acts on the stores by [g] folds [g] over them. *)
Lemma for_each_caches {A} (f : A -> SW unit)
      (g : A -> CacheStorage -> CacheStorage) :
  (forall a w, caches (snd (f a w)) = g a (caches w)) ->
  forall l w,
    caches (snd (for_each f l w)) =
    fold_left (fun cs a => g a cs) l (caches w).
Proof.
  intros Hf. induction l as [|a l IH]; intros w; [reflexivity|].
  cbn [for_each fold_left]. unfold bind.
  specialize (Hf a w). destruct (f a w) as [u w']. cbn [snd] in Hf.
  rewrite <- Hf. apply IH.
Qed.

Lemma isCurrentCache_spec n :
  isCurrentCache n = true <-> n = CACHE_NAME \/ n = RUNTIME_CACHE.
Proof.
  unfold isCurrentCache. rewrite orb_true_iff, !String.eqb_eq. tauto.
Qed.

(** The stores that [onActivate] leaves are the current ones. *)
Lemma onActivate_caches w :
  caches (snd (onActivate w)) =
  List.filter (fun nc => isCurrentCache (fst nc)) (caches w).
Proof.
  unfold onActivate. unfold bind at 1 2 3. sw_unfold.
  cbn [fst snd caches console trace].
  match goal with
  | |- context [for_each ?f ?l ?w'] =>
      pose proof (for_each_caches f Storage.delete
                    (fun _ _ => eq_refl) l w') as H;
      destruct (for_each f l w') as [u w'']
  end.
  cbn [fst snd caches] in *. rewrite H, fold_delete.
  apply filter_ext_in. intros [n c] Hin. cbn [fst].
  assert (Hk : In n (Storage.keys (caches w)))
    by (apply in_map_iff; exists (n, c); auto).
  destruct (isCurrentCache n) eqn:C.
  - apply negb_true_iff, not_true_iff_false. intros E.
    apply existsb_exists in E as (x & Hx & E).
    apply String.eqb_eq in E. subst x.
    apply filter_In in Hx as [_ Hx].
    unfold isCurrentCache in C.
    destruct (String.eqb n CACHE_NAME), (String.eqb n RUNTIME_CACHE);
      discriminate.
  - apply negb_false_iff, existsb_exists. exists n.
    split; [|apply String.eqb_refl].
    apply filter_In. split; [exact Hk|].
    unfold isCurrentCache in C.
    destruct (String.eqb n CACHE_NAME), (String.eqb n RUNTIME_CACHE);
      (discriminate || reflexivity).
Qed.

Lemma onActivate_fulfilled w : fst (onActivate w) = Fulfilled.
Proof.
  unfold onActivate. unfold bind at 1 2 3. sw_unfold.
  match goal with
  | |- context [for_each ?f ?l ?w'] => destruct (for_each f l w')
  end.
  reflexivity.
Qed.

Lemma lookup_filter (p : string -> bool) n cs :
  p n = true ->
  Storage.lookup n (List.filter (fun nc => p (fst nc)) cs)
  = Storage.lookup n cs.
Proof.
  intros Hp. induction cs as [|[n0 c0] cs IH]; simpl; [reflexivity|].
  destruct (p n0) eqn:E0; simpl.
  - now rewrite IH.
  - destruct (String.eqb n0 n) eqn:En; [|exact IH].
    apply String.eqb_eq in En. congruence.
Qed.

End Activation.

(** C7: when the activate handler has run, the stores that remain are
    exactly those of the stores before whose name is one of the two
    current names: every other store is gone from the enumeration, and the
    two current stores are as they were. *)
Theorem activate_purges_stale_stores w :
  let cs' := caches (snd (onActivate w)) in
  fst (onActivate w) = Fulfilled /\
  cs' = List.filter (fun nc => isCurrentCache (fst nc)) (caches w) /\
  (forall n, In n (Storage.keys cs') <->
             In n (Storage.keys (caches w)) /\
             (n = CACHE_NAME \/ n = RUNTIME_CACHE)) /\
  (forall n, Storage.lookup n cs' =
             if isCurrentCache n then Storage.lookup n (caches w) else None).
Proof.
  intros cs'. subst cs'. rewrite onActivate_caches.
  split; [apply onActivate_fulfilled|]. split; [reflexivity|]. split.
  - intros n. unfold Storage.keys. rewrite !in_map_iff. split.
    + intros ([n0 c] & <- & H). apply filter_In in H as [H C].
      split; [eauto | now apply isCurrentCache_spec].
    + intros [([n0 c] & <- & H) C]. exists (n0, c). split; [reflexivity|].
      apply filter_In. split; [exact H | now apply isCurrentCache_spec].
  - intros n. destruct (isCurrentCache n) eqn:C.
    + now apply lookup_filter.
    + destruct (Storage.lookup n (List.filter _ (caches w))) eqn:E;
        [|reflexivity].
      apply lookup_In, filter_In in E as [_ E]. simpl in E. congruence.
Qed.

Example activate_sample :
  Storage.keys
    (caches (snd (onActivate
       {| caches := [("wifi-portal-v4", ∅); (CACHE_NAME, ∅);
                     ("wifi-portal-runtime-v4", ∅); (RUNTIME_CACHE, ∅)];
          console := []; trace := [] |})))
  = [CACHE_NAME; RUNTIME_CACHE].
Proof. reflexivity. Qed.

(** ** Fallback responses *)

Lemma well_formed_loading_page :
  well_formed (Response_new LOADING_PAGE 200
                 [("Content-Type", "text/html; charset=utf-8");
                  ("Cache-Control", "no-cache, no-store, must-revalidate")]).
Proof.
  split; [simpl; lia|]. eexists. split; [reflexivity|]. vm_compute. reflexivity.
Qed.

Lemma well_formed_offline_page :
  well_formed (Response_new OFFLINE_PAGE 200 [("Content-Type", "text/html")]).
Proof.
  split; [simpl; lia|]. eexists. split; [reflexivity|]. reflexivity.
Qed.

Lemma well_formed_api_error m u :
  well_formed (Response_new (API_ERROR_BODY m u) 503
                 [("Content-Type", "application/json")]).
Proof.
  split; [simpl; lia|]. eexists. split; [reflexivity|]. reflexivity.
Qed.

Lemma well_formed_empty : well_formed (Response_new "" 503 []).
Proof.
  split; [simpl; lia|]. eexists. split; [reflexivity|]. reflexivity.
Qed.

Lemma well_formed_asset_unavailable :
  well_formed (Response_new "Asset unavailable" 503 []).
Proof.
  split; [simpl; lia|]. eexists. split; [reflexivity|]. reflexivity.
Qed.

Create HintDb fallback.
#[local] Hint Resolve well_formed_loading_page well_formed_offline_page
  well_formed_api_error well_formed_empty well_formed_asset_unavailable
  : fallback.

(** The headers the script itself gives to the three plain fallbacks are
    empty: their content type is the one the constructor adds. *)
Lemma plain_fallback_content_type b st :
  headers_get (resp_headers (Response_new b st [])) "Content-Type"
  = Some "text/plain;charset=UTF-8".
Proof. reflexivity. Qed.

(** C4: a request of any class the worker answers, for which the fetch
    is rejected and neither the lookup of the request nor that of
    [/index.html] finds an entry, is answered all the same, with a response
    of status 200 or 503 whose [Content-Type] fits its body: the type the
    script names for the login, API and HTML fallbacks, and the
    [text/plain] of the constructor for the probe, asset and default
    fallbacks, whose bodies are plain or empty text. *)
Theorem fallback_well_formed env request w m :
  classify request <> Ignored ->
  network env (href (url request)) = Rejected m ->
  Storage.match_ (cache_key request) (caches w) = None ->
  Storage.match_ (origin env +:+ "/index.html") (caches w) = None ->
  exists r, fst (onFetch env request w) = Some r /\
            (status r = 200 \/ status r = 503) /\
            well_formed r.
Proof.
  intros Hc Hn Hreq Hidx. revert Hc.
  unfold onFetch, classify; sw_unfold. rewrite Hn.
  repeat (split_branch; cbn [fst snd caches console trace] in * );
    intros Hc; try congruence;
    eexists; (split; [reflexivity|]);
    (split; [(left; reflexivity) || (right; reflexivity)|]);
    auto with fallback.
Qed.

(** The manifest of the application, requested with the network down and
    no store. *)
Lemma fallback_well_formed_witness :
  classify (Sample.subresource (Sample.plain "/manifest.json")) = Default /\
  exists r,
    fst (onFetch Sample.env_down
           (Sample.subresource (Sample.plain "/manifest.json")) Sample.fresh)
    = Some r /\
    (status r = 200 \/ status r = 503) /\ well_formed r.
Proof.
  split; [reflexivity|].
  apply (fallback_well_formed Sample.env_down
           (Sample.subresource (Sample.plain "/manifest.json"))
           Sample.fresh "Failed to fetch");
    (reflexivity || discriminate).
Defined.

(** ** The login redirect *)

(** C5: for a GET request over http(s) for
    [/login?dst=http%3A%2F%2Fexample.com], on any host and with any
    headers: a response of the network is returned as it is and no store
    is written; when the fetch is rejected the cached [/index.html] is
    returned if there is one, and otherwise the loading page, with status
    200 and a [Cache-Control] header that carries [no-cache]. *)
Theorem login_redirect_scenario env request w :
  method request = "GET" ->
  startsWith (protocol (url request)) "http" = true ->
  pathname (url request) = "/login" ->
  searchParams (url request) = [("dst", "http://example.com")] ->
  (forall response,
      network env (href (url request)) = Resolved response ->
      fst (onFetch env request w) = Some response /\
      caches (snd (onFetch env request w)) = caches w /\
      exists es, performs (onFetch env request) w es /\
                 existsb is_cache_write es = false) /\
  (forall m cached,
      network env (href (url request)) = Rejected m ->
      Storage.match_ (origin env +:+ "/index.html") (caches w)
      = Some cached ->
      fst (onFetch env request w) = Some cached) /\
  (forall m,
      network env (href (url request)) = Rejected m ->
      Storage.match_ (origin env +:+ "/index.html") (caches w) = None ->
      exists r,
        fst (onFetch env request w) = Some r /\
        status r = 200 /\
        body r = LOADING_PAGE /\
        headers_get (resp_headers r) "Cache-Control"
        = Some "no-cache, no-store, must-revalidate" /\
        has_directive "no-cache" "no-cache, no-store, must-revalidate"
        = true).
Proof.
  intros Hm Hp Hpath Hq. apply String.eqb_eq in Hm.
  assert (Hh : isHotspotURL (url request) = true)
    by (unfold isHotspotURL, isHotspotPath; now rewrite Hpath).
  unfold performs, onFetch. rewrite Hm, Hp, Hh. cbn [negb].
  sw_unfold.
  destruct (negb (search (url request) =? "")%string);
    (split; [|split]).
  all: try (intros response ->; cbn [fst snd caches console trace];
            split; [reflexivity|]; split; [reflexivity | show_effects]).
  all: try (intros m cached -> Hc; cbn [fst snd caches console trace];
            now rewrite Hc).
  all: intros m -> Hc; cbn [fst snd caches console trace]; rewrite Hc;
       eexists; (split; [reflexivity|]); repeat split; reflexivity.
Qed.

(** A redirect of the gateway is passed on as it is. *)
Lemma login_redirect_scenario_witness :
  fst (onFetch (Sample.env_up (Sample.page 302))
         (Sample.navigate Sample.login_dst) Sample.fresh)
  = Some (Sample.page 302).
Proof.
  destruct (login_redirect_scenario (Sample.env_up (Sample.page 302))
              (Sample.navigate Sample.login_dst) Sample.fresh
              eq_refl eq_refl eq_refl eq_refl)
    as (Hup & _).
  apply (Hup (Sample.page 302)). reflexivity.
Defined.

(** ** Cache first *)

(** A successful fetch of a static asset that no store had is kept in
    the runtime store, where the next lookup finds it. *)
Lemma static_fetch_is_stored env request w response :
  classify request = StaticAsset ->
  Storage.match_ (cache_key request) (caches w) = None ->
  network env (href (url request)) = Resolved response ->
  status response = 200 ->
  fst (onFetch env request w) = Some response /\
  Storage.match_ (cache_key request) (caches (snd (onFetch env request w)))
  = Some response /\
  exists c,
    Storage.lookup RUNTIME_CACHE (caches (snd (onFetch env request w)))
    = Some c /\
    c !! cache_key request = Some response.
Proof.
  intros Hc Hmiss Hn Hs. apply Z.eqb_eq in Hs. revert Hc.
  unfold onFetch, classify; sw_unfold. rewrite Hn.
  repeat (split_branch; cbn [fst snd caches console trace] in * );
    intros Hc; try congruence.
  all: split; [reflexivity|]; split;
    [now apply match_after_put | apply lookup_open_put].
Qed.

(** A hit of [caches.match] for a static-asset request is the answer:
    nothing is fetched and the stores stay as they are. *)
Lemma static_cache_hit env request w r :
  classify request = StaticAsset ->
  Storage.match_ (cache_key request) (caches w) = Some r ->
  fst (onFetch env request w) = Some r /\
  caches (snd (onFetch env request w)) = caches w /\
  exists es, performs (onFetch env request) w es /\
             existsb is_fetch es = false.
Proof.
  intros Hc Hr. revert Hc.
  unfold onFetch, classify; sw_unfold.
  repeat (split_branch; cbn [fst snd caches console trace] in * );
    intros Hc; try congruence.
  all: split; [congruence|]; split; [reflexivity | show_effects].
Qed.

(** Two requests for the same asset in a row: the first is fetched with
    status 200, the second is answered with that response and without the
    network. *)
Lemma repeated_static_request env1 env2 request w response :
  classify request = StaticAsset ->
  Storage.match_ (cache_key request) (caches w) = None ->
  network env1 (href (url request)) = Resolved response ->
  status response = 200 ->
  let w1 := snd (onFetch env1 request w) in
  fst (onFetch env2 request w1) = Some response /\
  exists es, performs (onFetch env2 request) w1 es /\
             existsb is_fetch es = false.
Proof.
  intros Hc Hmiss Hn Hs w1.
  destruct (static_fetch_is_stored env1 request w response Hc Hmiss Hn Hs)
    as (_ & Hstored & _).
  destruct (static_cache_hit env2 request w1 response Hc Hstored)
    as (Hans & _ & Heff).
  split; assumption.
Qed.

(** C6: when some store holds a response under the URL of a
    static-asset request, the handler answers with the response that
    [caches.match] finds, fetches nothing and leaves the stores as they
    are. *)
Theorem static_asset_served_from_cache env request w n c r0 :
  classify request = StaticAsset ->
  Storage.lookup n (caches w) = Some c ->
  c !! cache_key request = Some r0 ->
  exists r,
    Storage.match_ (cache_key request) (caches w) = Some r /\
    fst (onFetch env request w) = Some r /\
    caches (snd (onFetch env request w)) = caches w /\
    exists es, performs (onFetch env request) w es /\
               existsb is_fetch es = false.
Proof.
  intros Hc Hn Hk.
  destruct (match_finds _ _ _ _ _ (lookup_In _ _ _ Hn) Hk) as [r Hr].
  exists r. split; [exact Hr|]. now apply static_cache_hit.
Qed.

(** The second of two requests for an asset is served from the store
    the first one filled, with the network down. *)
Lemma static_asset_served_from_cache_witness :
  let request := Sample.subresource (Sample.plain "/assets/app-abc123.js") in
  let w1 := snd (onFetch (Sample.env_up (Sample.page 200)) request
                   Sample.fresh) in
  fst (onFetch Sample.env_down request w1) = Some (Sample.page 200) /\
  trace (snd (onFetch Sample.env_down request w1))
  = trace w1 ++ [ECachesMatch (cache_key request)].
Proof.
  intros request w1.
  destruct (static_asset_served_from_cache Sample.env_down request w1
              RUNTIME_CACHE
              (<[cache_key request := Sample.page 200]> ∅)
              (Sample.page 200))
    as (r & Hr & Hrun & _); [reflexivity | reflexivity | reflexivity |].
  split; [|reflexivity].
  rewrite Hrun, <- Hr. reflexivity.
Defined.

(** ** The cached-response invariant *)

Section Invariant.

Implicit Types (cs : CacheStorage) (c : Cache) (r : Response).

(** Where an entry found after a fetch event comes from: it was there
    before, or it is the response of status 200 that the network gave to
    this request, written into the runtime store under its key. *)
Lemma onFetch_entry_origin env request w n c' k r :
  In (n, c') (caches (snd (onFetch env request w))) ->
  c' !! k = Some r ->
  (exists c, In (n, c) (caches w) /\ c !! k = Some r) \/
  (n = RUNTIME_CACHE /\ k = cache_key request /\
   network env (href (url request)) = Resolved r /\ status r = 200).
Proof.
  intros Hin Hk.
  destruct (onFetch_caches env request w) as [E | (r1 & Hn & Hs & _ & E)];
    rewrite E in Hin.
  - left. eauto.
  - apply In_put in Hin as (c & Hin & ->).
    destruct (String.eqb n RUNTIME_CACHE) eqn:En.
    + apply String.eqb_eq in En. subst n.
      destruct (decide (cache_key request = k)) as [<- | Hne].
      * rewrite lookup_insert_eq in Hk. injection Hk as <-. right. auto.
      * rewrite lookup_insert_ne in Hk by exact Hne.
        apply In_open in Hin as [Hin | (_ & _ & ->)].
        -- left. eauto.
        -- rewrite lookup_empty in Hk. discriminate.
    + apply In_open in Hin as [Hin | (_ & -> & _)].
      * left. eauto.
      * rewrite String.eqb_refl in En. discriminate.
Qed.

(** A fetch event evicts nothing: a key that a store had is still in
    that store afterwards. *)
Lemma onFetch_keeps_entries env request w n c k :
  In (n, c) (caches w) -> is_Some (c !! k) ->
  exists c', In (n, c') (caches (snd (onFetch env request w))) /\
             is_Some (c' !! k).
Proof.
  intros Hin Hk.
  destruct (onFetch_caches env request w) as [E | (r1 & _ & _ & _ & E)];
    rewrite E.
  - eauto.
  - eexists. split.
    + apply In_put. exists c. split; [|reflexivity].
      apply In_open. now left.
    + destruct (String.eqb n RUNTIME_CACHE); [|exact Hk].
      destruct (decide (cache_key request = k)) as [<- | Hne].
      * rewrite lookup_insert_eq. eauto.
      * now rewrite lookup_insert_ne.
Qed.

(** A response of status 200 that the handler fetched for a request of
    a caching class replaces whatever the runtime store had under the
    key. *)
Lemma onFetch_overwrites env request w r :
  caching_class (classify request) = true ->
  (classify request = StaticAsset ->
   Storage.match_ (cache_key request) (caches w) = None) ->
  network env (href (url request)) = Resolved r ->
  status r = 200 ->
  exists c,
    Storage.lookup RUNTIME_CACHE (caches (snd (onFetch env request w)))
    = Some c /\
    c !! cache_key request = Some r.
Proof.
  intros Hc Hmiss Hn Hs. apply Z.eqb_eq in Hs. revert Hc Hmiss.
  unfold onFetch, classify; sw_unfold. rewrite Hn.
  repeat (split_branch; cbn [fst snd caches console trace] in * );
    intros Hc Hmiss; try discriminate; try congruence;
    try apply lookup_open_put.
  all: specialize (Hmiss eq_refl); congruence.
Qed.

(** The stores after install are those before, with the static store
    opened and, when the seeding succeeded, the two seeds written. *)
Lemma onInstall_caches env w :
  caches (snd (onInstall env w)) = Storage.open CACHE_NAME (caches w) \/
  exists k1 r1 k2 r2,
    caches (snd (onInstall env w)) =
    Storage.put CACHE_NAME k2 r2
      (Storage.put CACHE_NAME k1 r1 (Storage.open CACHE_NAME (caches w))).
Proof.
  unfold onInstall, cache_addAll, STATIC_ASSETS.
  cbn [fetch_all]. sw_unfold.
  destruct (network env (origin env +:+ "/")) as [r1|m1];
  destruct (network env (origin env +:+ "/index.html")) as [r2|m2];
  try destruct (ok_status r1 && negb (status r1 =? 206));
  try destruct (ok_status r2 && negb (status r2 =? 206));
  cbn [fst snd caches console trace for_each];
  sw_unfold; cbn [fst snd caches console trace];
  (left; reflexivity) || (right; repeat eexists).
Qed.

Lemma onInstall_runtime env w c :
  In (RUNTIME_CACHE, c) (caches (snd (onInstall env w))) <->
  In (RUNTIME_CACHE, c) (caches w).
Proof.
  destruct (onInstall_caches env w) as [E | (k1 & r1 & k2 & r2 & E)];
    rewrite E; clear E.
  - rewrite In_open. split; [|tauto].
    intros [H | (_ & H & _)]; [exact H | discriminate].
  - rewrite In_put. split.
    + intros (c1 & H & ->). apply In_put in H as (c0 & H & ->).
      apply In_open in H as [H | (_ & H & _)]; [exact H | discriminate].
    + intros H. exists c. split; [|reflexivity].
      apply In_put. exists c. split; [|reflexivity].
      apply In_open. now left.
Qed.

(** The message handler deletes whole stores or nothing. *)
Lemma onMessage_caches data w n c :
  In (n, c) (caches (snd (onMessage data w))) -> In (n, c) (caches w).
Proof.
  unfold onMessage. unfold bind at 1.
  destruct (String.eqb data "skipWaiting");
    destruct (String.eqb data "clearCache");
    sw_unfold; cbn [fst snd caches console trace]; auto.
  all: match goal with
       | |- context [for_each ?f ?l ?w'] =>
           rewrite (for_each_caches f Storage.delete (fun _ _ => eq_refl) l w')
       end;
       cbn [caches]; rewrite fold_delete; intros H;
       now apply filter_In in H.
Qed.

End Invariant.

(** Install evicts nothing either: it only opens the static store and
    writes the seeds into it. *)
Lemma onInstall_keeps_entries env w n (c : Cache) k :
  In (n, c) (caches w) -> is_Some (c !! k) ->
  exists c', In (n, c') (caches (snd (onInstall env w))) /\
             is_Some (c' !! k).
Proof.
  intros Hin Hk.
  assert (Hins : forall name key r (c0 : Cache),
             is_Some (c0 !! k) ->
             is_Some ((if String.eqb n name then <[key := r]> c0 else c0)
                        !! k)).
  { intros name key r c0 H0. destruct (String.eqb n name); [|exact H0].
    destruct (decide (key = k)) as [<- | Hne].
    - rewrite lookup_insert_eq. eauto.
    - now rewrite lookup_insert_ne. }
  destruct (onInstall_caches env w) as [E | (k1 & r1 & k2 & r2 & E)];
    rewrite E; clear E.
  - exists c. split; [apply In_open; now left | exact Hk].
  - eexists. split.
    + apply In_put. eexists. split; [|reflexivity].
      apply In_put. exists c. split; [|reflexivity].
      apply In_open. now left.
    + auto.
Qed.

(** C8: the runtime store only ever holds responses of status 200, and
    every handler keeps it so. An entry found after a fetch event was
    there before or is the network's response of status 200 to this
    request, written under its key in the runtime store; such a response
    replaces the entry the key had; and no key leaves a store. Install
    evicts nothing, and what the activate and message handlers remove are
    whole stores. *)
Theorem cached_response_invariant env request data w :
  runtime_entries_ok (caches w) ->
  let after_fetch := caches (snd (onFetch env request w)) in
  (runtime_entries_ok after_fetch /\
   (forall n c' k r,
       In (n, c') after_fetch -> c' !! k = Some r ->
       (exists c, In (n, c) (caches w) /\ c !! k = Some r) \/
       (n = RUNTIME_CACHE /\ k = cache_key request /\
        network env (href (url request)) = Resolved r /\ status r = 200)) /\
   (forall r,
       caching_class (classify request) = true ->
       (classify request = StaticAsset ->
        Storage.match_ (cache_key request) (caches w) = None) ->
       network env (href (url request)) = Resolved r ->
       status r = 200 ->
       exists c, Storage.lookup RUNTIME_CACHE after_fetch = Some c /\
                 c !! cache_key request = Some r) /\
   (forall n (c : Cache) k,
       In (n, c) (caches w) -> is_Some (c !! k) ->
       exists c', In (n, c') after_fetch /\ is_Some (c' !! k))) /\
  (runtime_entries_ok (caches (snd (onInstall env w))) /\
   (forall n (c : Cache) k,
       In (n, c) (caches w) -> is_Some (c !! k) ->
       exists c', In (n, c') (caches (snd (onInstall env w))) /\
                  is_Some (c' !! k))) /\
  (runtime_entries_ok (caches (snd (onActivate w))) /\
   (forall n c, In (n, c) (caches (snd (onActivate w))) ->
                In (n, c) (caches w))) /\
  (runtime_entries_ok (caches (snd (onMessage data w))) /\
   (forall n c, In (n, c) (caches (snd (onMessage data w))) ->
                In (n, c) (caches w))).
Proof.
  intros Hok after_fetch. subst after_fetch.
  assert (Hact : forall n c, In (n, c) (caches (snd (onActivate w))) ->
                             In (n, c) (caches w)).
  { intros n c. rewrite onActivate_caches. intros H.
    now apply filter_In in H. }
  repeat split.
  - intros c k r Hin Hk.
    destruct (onFetch_entry_origin _ _ _ _ _ _ _ Hin Hk)
      as [(c0 & Hin0 & Hk0) | (_ & _ & _ & Hs)]; [eauto | exact Hs].
  - intros n c' k r. apply onFetch_entry_origin.
  - intros r. apply onFetch_overwrites.
  - intros n c k. apply onFetch_keeps_entries.
  - intros c k r Hin. apply onInstall_runtime in Hin. eauto.
  - intros n c k. apply onInstall_keeps_entries.
  - intros c k r Hin. apply Hact in Hin. eauto.
  - exact Hact.
  - intros c k r Hin. apply onMessage_caches in Hin. eauto.
  - intros n c. apply onMessage_caches.
Qed.

(** The root document is in the runtime store; a navigation that
    fetches a newer version with status 200 puts it in its place. *)
Lemma cached_response_invariant_witness :
  let request := Sample.navigate (Sample.plain "/") in
  let env := Sample.env_up Sample.newer in
  runtime_entries_ok (caches Sample.warm) /\
  Storage.match_ (cache_key request) (caches Sample.warm)
  = Some (Sample.page 200) /\
  runtime_entries_ok (caches (snd (onFetch env request Sample.warm))) /\
  exists c,
    Storage.lookup RUNTIME_CACHE (caches (snd (onFetch env request Sample.warm)))
    = Some c /\
    c !! cache_key request = Some Sample.newer.
Proof.
  intros request env.
  assert (H0 : runtime_entries_ok (caches Sample.warm)).
  { intros c k r [[= <-] | []] Hk.
    apply lookup_singleton_Some in Hk as [_ <-]. reflexivity. }
  destruct (cached_response_invariant env request "clearCache" Sample.warm H0)
    as ((Hinv & _ & Hover & _) & _).
  split; [exact H0|]. split; [reflexivity|]. split; [exact Hinv|].
  apply Hover; (reflexivity || discriminate).
Defined.

(** * Further properties of the worker *)

(** ** Loops and their effects *)

Section Loops.

Implicit Types (cs : CacheStorage) (names : list string).

(** A loop whose body adds the effects [e a] adds them in order. *)
Lemma for_each_trace {A} (f : A -> SW unit) (e : A -> list Effect) :
  (forall a w, trace (snd (f a w)) = trace w ++ e a) ->
  forall l w,
    trace (snd (for_each f l w)) = trace w ++ List.concat (List.map e l).
Proof.
  intros Hf. induction l as [|a l IH]; intros w.
  - simpl. symmetry. apply app_nil_r.
  - cbn [for_each List.map List.concat]. unfold bind.
    specialize (Hf a w). destruct (f a w) as [u w']. cbn [snd] in Hf.
    rewrite IH, Hf. symmetry. apply app_assoc.
Qed.

(** A loop whose body leaves the console alone leaves it alone. *)
Lemma for_each_console {A} (f : A -> SW unit) :
  (forall a w, console (snd (f a w)) = console w) ->
  forall l w, console (snd (for_each f l w)) = console w.
Proof.
  intros Hf. induction l as [|a l IH]; intros w; [reflexivity|].
  cbn [for_each]. unfold bind.
  specialize (Hf a w). destruct (f a w) as [u w']. cbn [snd] in Hf.
  now rewrite IH.
Qed.

Lemma filter_none {A} (f : A -> bool) (l : list A) :
  (forall a, In a l -> f a = false) -> List.filter f l = [].
Proof.
  induction l as [|a l IH]; intros H; [reflexivity|]. simpl.
  rewrite (H a) by now left. apply IH. intros b Hb. apply H. now right.
Qed.

(** Deleting every name of the enumeration leaves no store. *)
Lemma delete_all_keys cs :
  fold_left (fun cs n => Storage.delete n cs) (Storage.keys cs) cs = [].
Proof.
  rewrite fold_delete. apply filter_none. intros [n c] Hin. cbn [fst].
  apply negb_false_iff, existsb_exists. exists n.
  split; [|apply String.eqb_refl].
  apply in_map_iff. exists (n, c). auto.
Qed.

Lemma lookup_open_other n name cs :
  n <> name ->
  Storage.lookup n (Storage.open name cs) = Storage.lookup n cs.
Proof.
  intros Hne. unfold Storage.open.
  destruct (Storage.lookup name cs); [reflexivity|].
  induction cs as [|[n0 c0] cs IH]; simpl.
  - apply String.eqb_neq in Hne. rewrite String.eqb_sym in Hne.
    now rewrite Hne.
  - destruct (String.eqb n0 n); auto.
Qed.

Lemma keys_put name key r cs :
  Storage.keys (Storage.put name key r cs) = Storage.keys cs.
Proof.
  unfold Storage.keys, Storage.put. rewrite map_map.
  apply map_ext. intros [n c]. simpl. now destruct (String.eqb n name).
Qed.

Lemma keys_open name cs :
  Storage.keys (Storage.open name cs) =
  match Storage.lookup name cs with
  | Some _ => Storage.keys cs
  | None => Storage.keys cs ++ [name]
  end.
Proof.
  unfold Storage.open. destruct (Storage.lookup name cs); [reflexivity|].
  unfold Storage.keys. now rewrite map_app.
Qed.

End Loops.

(** ** Messages *)

(** X1: the [clearCache] message deletes every store: the handler
    enumerates the names, deletes each of them in that order, and the
    storage is empty afterwards. It does not call [skipWaiting]. *)
Theorem clear_cache_deletes_every_store w :
  caches (snd (onMessage "clearCache" w)) = [] /\
  performs (onMessage "clearCache") w
    (ECachesKeys :: List.map ECachesDelete (Storage.keys (caches w))) /\
  console (snd (onMessage "clearCache" w)) = console w.
Proof.
  unfold performs, onMessage. cbn [String.eqb Ascii.eqb Bool.eqb].
  sw_unfold. cbn [fst snd caches console trace].
  repeat split.
  - match goal with
    | |- context [for_each ?f ?l ?w'] =>
        rewrite (for_each_caches f Storage.delete (fun _ _ => eq_refl) l w')
    end.
    cbn [caches]. apply delete_all_keys.
  - match goal with
    | |- context [for_each ?f ?l ?w'] =>
        rewrite (for_each_trace f (fun n => [ECachesDelete n])
                   (fun _ _ => eq_refl) l w')
    end.
    cbn [trace]. rewrite <- app_assoc. f_equal. simpl. f_equal.
    induction (Storage.keys (caches w)) as [|n l IH]; [reflexivity|].
    simpl. now f_equal.
  - match goal with
    | |- context [for_each ?f ?l ?w'] =>
        rewrite (for_each_console f (fun _ _ => eq_refl) l w')
    end.
    reflexivity.
Qed.

(** X2: every message other than [clearCache] leaves the stores and the
    console as they are; [skipWaiting] is called for the message
    [skipWaiting] and for no other. *)
Theorem other_messages_keep_stores data w :
  data <> "clearCache" ->
  caches (snd (onMessage data w)) = caches w /\
  console (snd (onMessage data w)) = console w /\
  performs (onMessage data) w
    (if String.eqb data "skipWaiting" then [ESkipWaiting] else []).
Proof.
  intros Hne. apply String.eqb_neq in Hne.
  unfold performs, onMessage. rewrite Hne.
  destruct (String.eqb data "skipWaiting"); sw_unfold;
    cbn [fst snd caches console trace]; repeat split.
  symmetry. apply app_nil_r.
Qed.

(** The [skipWaiting] message calls [skipWaiting] and nothing else. *)
Lemma other_messages_keep_stores_witness :
  "skipWaiting" <> "clearCache" /\
  performs (onMessage "skipWaiting") Sample.warm [ESkipWaiting] /\
  caches (snd (onMessage "skipWaiting" Sample.warm)) = caches Sample.warm.
Proof.
  assert (Hne : "skipWaiting" <> "clearCache") by discriminate.
  destruct (other_messages_keep_stores "skipWaiting" Sample.warm Hne)
    as (Hc & _ & Hp).
  split; [exact Hne|]. split; [exact Hp | exact Hc].
Defined.

(** ** The reach of the fetch handler *)

(** X3: the fetch handler only ever touches the runtime store. Every
    other store, the static one included, is the same after the event, and
    the enumeration is the same or has the runtime store added at its
    end. *)
Theorem fetch_only_touches_runtime_store env request w :
  (forall n, n <> RUNTIME_CACHE ->
             Storage.lookup n (caches (snd (onFetch env request w)))
             = Storage.lookup n (caches w)) /\
  (Storage.keys (caches (snd (onFetch env request w)))
   = Storage.keys (caches w) \/
   (Storage.lookup RUNTIME_CACHE (caches w) = None /\
    Storage.keys (caches (snd (onFetch env request w)))
    = Storage.keys (caches w) ++ [RUNTIME_CACHE])).
Proof.
  destruct (onFetch_caches env request w) as [E | (r & _ & _ & _ & E)];
    rewrite E; clear E.
  - split; [reflexivity | now left].
  - split.
    + intros n Hne. rewrite lookup_put, lookup_open_other by exact Hne.
      apply String.eqb_neq in Hne. rewrite Hne.
      now destruct (Storage.lookup n (caches w)).
    + rewrite keys_put, keys_open.
      destruct (Storage.lookup RUNTIME_CACHE (caches w)); [now left|].
      right. split; reflexivity.
Qed.

(** The static store of a seeded world is the same after a navigation
    that is fetched and kept. *)
Lemma fetch_only_touches_runtime_store_witness :
  let w := snd (onInstall (Sample.env_up (Sample.page 200)) Sample.fresh) in
  let request := Sample.navigate (Sample.plain "/index.html") in
  CACHE_NAME <> RUNTIME_CACHE /\
  Storage.lookup CACHE_NAME
    (caches (snd (onFetch (Sample.env_up Sample.newer) request w)))
  = Storage.lookup CACHE_NAME (caches w) /\
  Storage.keys (caches (snd (onFetch (Sample.env_up Sample.newer) request w)))
  = [CACHE_NAME; RUNTIME_CACHE].
Proof.
  intros w request.
  assert (Hne : CACHE_NAME <> RUNTIME_CACHE) by discriminate.
  split; [exact Hne|]. split; [|reflexivity].
  apply (fetch_only_touches_runtime_store (Sample.env_up Sample.newer)
           request w).
  exact Hne.
Defined.

(** X4: the handler goes to the network at most once for an event, and
    then for the URL of the request itself. *)
Theorem fetch_at_most_once env request w :
  exists es,
    performs (onFetch env request) w es /\
    (List.filter is_fetch es = [] \/
     List.filter is_fetch es = [EFetch (href (url request))]).
Proof.
  run_fetch;
    (rewrite <- ?app_assoc; eexists; split;
     [reflexivity || (symmetry; apply app_nil_r)
     | cbn; (now left) || (now right)]).
Qed.

(** ** Strategies of the caching classes *)

(** X5: a response of the network to a request of a caching class that
    is fetched (a static asset only after a miss) is returned as it is.
    With status 200 it is also written into the runtime store under the
    URL of the request; with any other status the stores stay as they
    are. *)
Theorem fetched_response_kept_only_when_200 env request w response :
  caching_class (classify request) = true ->
  (classify request = StaticAsset ->
   Storage.match_ (cache_key request) (caches w) = None) ->
  network env (href (url request)) = Resolved response ->
  fst (onFetch env request w) = Some response /\
  caches (snd (onFetch env request w)) =
    if status response =? 200
    then Storage.put RUNTIME_CACHE (cache_key request) response
           (Storage.open RUNTIME_CACHE (caches w))
    else caches w.
Proof.
  intros Hc Hmiss Hn. revert Hc Hmiss.
  unfold onFetch, classify; sw_unfold. rewrite Hn.
  repeat (split_branch; cbn [fst snd caches console trace] in * );
    intros Hc Hmiss; try discriminate; try (split; reflexivity).
  all: specialize (Hmiss eq_refl); congruence.
Qed.

(** A page that is not found is passed on and not kept. *)
Lemma fetched_response_kept_only_when_200_witness :
  let request := Sample.navigate (Sample.plain "/missing.html") in
  fst (onFetch (Sample.env_up (Sample.page 404)) request Sample.warm)
  = Some (Sample.page 404) /\
  caches (snd (onFetch (Sample.env_up (Sample.page 404)) request Sample.warm))
  = caches Sample.warm.
Proof.
  intros request.
  apply (fetched_response_kept_only_when_200
           (Sample.env_up (Sample.page 404)) request Sample.warm
           (Sample.page 404)); (reflexivity || discriminate).
Defined.

(** X6: an HTML document whose fetch is rejected is answered from the
    stores: with the entry of the request if there is one, else with the
    entry of [/index.html], else with the synthesized offline page of
    status 200. Nothing is written. *)
Theorem html_offline_fallback_chain env request w m :
  classify request = HtmlDocument ->
  network env (href (url request)) = Rejected m ->
  fst (onFetch env request w) =
    Some match Storage.match_ (cache_key request) (caches w) with
         | Some c => c
         | None =>
             match Storage.match_ (origin env +:+ "/index.html") (caches w)
             with
             | Some c => c
             | None => Response_new OFFLINE_PAGE 200
                         [("Content-Type", "text/html")]
             end
         end /\
  caches (snd (onFetch env request w)) = caches w.
Proof.
  intros Hc Hn. revert Hc.
  unfold onFetch, classify; sw_unfold. rewrite Hn.
  repeat (split_branch; cbn [fst snd caches console trace] in * );
    intros Hc; try discriminate; split; reflexivity.
Qed.

(** The root document requested with the network down, when only
    [/index.html] is in the stores. *)
Lemma html_offline_fallback_chain_witness :
  let w := {| caches :=
                [(CACHE_NAME,
                  {[ Sample.portal +:+ "/index.html" := Sample.page 200 ]})];
              console := []; trace := [] |} in
  fst (onFetch Sample.env_down (Sample.navigate (Sample.plain "/")) w)
  = Some (Sample.page 200).
Proof.
  intros w.
  destruct (html_offline_fallback_chain Sample.env_down
              (Sample.navigate (Sample.plain "/")) w "Failed to fetch"
              eq_refl eq_refl) as [H _].
  rewrite H. reflexivity.
Defined.

(** X7: a request of the default class whose fetch is rejected is
    answered with the entry of the request if there is one and with an
    empty 503 otherwise; a static asset that is in no store and whose fetch
    is rejected is answered with the text [Asset unavailable] and status
    503. Neither falls back on [/index.html], and nothing is written. *)
Theorem default_and_asset_offline env request w m :
  network env (href (url request)) = Rejected m ->
  (classify request = Default ->
   fst (onFetch env request w) =
     Some (default (Response_new "" 503 [])
             (Storage.match_ (cache_key request) (caches w))) /\
   caches (snd (onFetch env request w)) = caches w) /\
  (classify request = StaticAsset ->
   Storage.match_ (cache_key request) (caches w) = None ->
   fst (onFetch env request w)
   = Some (Response_new "Asset unavailable" 503 []) /\
   caches (snd (onFetch env request w)) = caches w).
Proof.
  intros Hn.
  unfold onFetch, classify; sw_unfold. rewrite Hn.
  repeat (split_branch; cbn [fst snd caches console trace] in * );
    (split; [intros Hc | intros Hc Hmiss]); try discriminate;
    try (split; reflexivity); congruence.
Qed.

(** The manifest of the application with the network down: the entry of
    [/index.html] is of no use to it. *)
Lemma default_and_asset_offline_witness :
  let w := {| caches :=
                [(CACHE_NAME,
                  {[ Sample.portal +:+ "/index.html" := Sample.page 200 ]})];
              console := []; trace := [] |} in
  fst (onFetch Sample.env_down
         (Sample.subresource (Sample.plain "/manifest.json")) w)
  = Some (Response_new "" 503 []).
Proof.
  intros w.
  destruct (default_and_asset_offline Sample.env_down
              (Sample.subresource (Sample.plain "/manifest.json")) w
              "Failed to fetch" eq_refl) as [Hd _].
  destruct (Hd eq_refl) as [H _]. rewrite H. reflexivity.
Defined.

(** ** Strategies of the sensitive classes *)

(** X8: a backend API call goes to the network and nowhere else: the one
    effect of the handler is the fetch, whatever the stores hold. A
    response, of whatever status, is passed on; a rejected fetch is
    answered with status 503, content type [application/json] and the
    error envelope that carries the message of the rejection and the URL. *)
Theorem api_call_is_network_only env request w :
  classify request = BackendApiCall ->
  performs (onFetch env request) w [EFetch (href (url request))] /\
  fst (onFetch env request w) =
    Some match network env (href (url request)) with
         | Resolved response => response
         | Rejected m =>
             {| status := 503;
                resp_headers := [("Content-Type", "application/json")];
                body := API_ERROR_BODY m (href (url request)) |}
         end.
Proof.
  run_fetch; intros; try discriminate; split; reflexivity.
Qed.

(** A call to the packages of the backend, with an old answer in the
    runtime store and the network down. *)
Lemma api_call_is_network_only_witness :
  let request := Sample.subresource (Sample.plain "/api/packages") in
  let w := {| caches :=
                [(RUNTIME_CACHE, {[ cache_key request := Sample.page 200 ]})];
              console := []; trace := [] |} in
  classify request = BackendApiCall /\
  Storage.match_ (cache_key request) (caches w) = Some (Sample.page 200) /\
  option_map status (fst (onFetch Sample.env_down request w)) = Some 503.
Proof.
  intros request w. split; [reflexivity|]. split; [reflexivity|].
  destruct (api_call_is_network_only Sample.env_down request w eq_refl)
    as [_ H].
  rewrite H. reflexivity.
Defined.

(** X9: a captive-portal login never looks its own URL up in the stores.
    When the network answers, the fetch is the one effect of the handler;
    when the fetch is rejected the handler looks [/index.html] up, and
    that is the only entry that can reach the answer. *)
Theorem login_reads_only_index env request w :
  classify request = CaptivePortalLogin ->
  match network env (href (url request)) with
  | Resolved response =>
      performs (onFetch env request) w [EFetch (href (url request))] /\
      fst (onFetch env request w) = Some response
  | Rejected _ =>
      performs (onFetch env request) w
        [EFetch (href (url request));
         ECachesMatch (origin env +:+ "/index.html")] /\
      fst (onFetch env request w) =
        Some (default
                (Response_new LOADING_PAGE 200
                   [("Content-Type", "text/html; charset=utf-8");
                    ("Cache-Control", "no-cache, no-store, must-revalidate")])
                (Storage.match_ (origin env +:+ "/index.html") (caches w)))
  end.
Proof.
  run_fetch; intros; try discriminate;
    (split; [rewrite <- ?app_assoc; reflexivity | reflexivity]).
Qed.

(** The login redirect with the network down and an old copy of the
    redirect itself in the runtime store: the copy is not served. *)
Lemma login_reads_only_index_witness :
  let request := Sample.navigate Sample.login_dst in
  let w := {| caches :=
                [(RUNTIME_CACHE, {[ cache_key request := Sample.page 200 ]})];
              console := []; trace := [] |} in
  Storage.match_ (cache_key request) (caches w) = Some (Sample.page 200) /\
  option_map body (fst (onFetch Sample.env_down request w))
  = Some LOADING_PAGE.
Proof.
  intros request w. split; [reflexivity|].
  pose proof (login_reads_only_index Sample.env_down request w eq_refl)
    as H.
  cbn [Sample.env_down network] in H. destruct H as [_ H].
  rewrite H. reflexivity.
Defined.

(** ** Install and activate together *)

Section Lifecycle.

Implicit Types (cs : CacheStorage) (c : Cache) (r : Response).

Lemma onInstall_seeded env w :
  caches (snd (onInstall env w)) = seeded_stores env (caches w).
Proof.
  unfold seeded_stores, onInstall, cache_addAll, seed_keys, STATIC_ASSETS,
    seed_ok.
  cbn [fetch_all forallb List.map fold_left]. sw_unfold.
  destruct (network env (origin env +:+ "/")) as [r1|m1];
  destruct (network env (origin env +:+ "/index.html")) as [r2|m2];
  try destruct (ok_status r1 && negb (status r1 =? 206));
  try destruct (ok_status r2 && negb (status r2 =? 206));
  cbn [fst snd caches console trace for_each andb];
  sw_unfold; cbn [fst snd caches console trace]; reflexivity.
Qed.

Lemma open_present name cs c :
  Storage.lookup name cs = Some c -> Storage.open name cs = cs.
Proof. intros H. unfold Storage.open. now rewrite H. Qed.

Lemma open_open name cs :
  Storage.open name (Storage.open name cs) = Storage.open name cs.
Proof. eapply open_present. apply lookup_open_same. Qed.

Lemma open_put name key r cs c :
  Storage.lookup name cs = Some c ->
  Storage.open name (Storage.put name key r cs) = Storage.put name key r cs.
Proof.
  intros H. eapply open_present. rewrite lookup_put, H. reflexivity.
Qed.

(** Writing the same two entries a second time changes nothing. *)
Lemma put_put_again name k1 r1 k2 r2 cs :
  Storage.put name k2 r2 (Storage.put name k1 r1
    (Storage.put name k2 r2 (Storage.put name k1 r1 cs)))
  = Storage.put name k2 r2 (Storage.put name k1 r1 cs).
Proof.
  unfold Storage.put. rewrite !map_map. apply map_ext. intros [n c].
  destruct (String.eqb n name) eqn:E; repeat (simpl; rewrite ?E);
    [|reflexivity].
  f_equal. apply map_eq. intros k.
  destruct (decide (k2 = k)) as [<- | H2].
  - now rewrite !lookup_insert_eq.
  - rewrite !(lookup_insert_ne _ k2) by exact H2.
    destruct (decide (k1 = k)) as [<- | H1].
    + now rewrite !lookup_insert_eq.
    + rewrite !(lookup_insert_ne _ k1) by exact H1.
      rewrite !(lookup_insert_ne _ k2) by exact H2.
      now rewrite !(lookup_insert_ne _ k1) by exact H1.
Qed.

Lemma seeded_stores_idem env cs :
  seeded_stores env (seeded_stores env cs) = seeded_stores env cs.
Proof.
  unfold seeded_stores, seed_keys, STATIC_ASSETS.
  destruct (forallb (seed_ok env) ["/"; "/index.html"]); [|apply open_open].
  cbn [List.map fold_left].
  set (cs0 := Storage.open CACHE_NAME cs).
  assert (H0 : exists c, Storage.lookup CACHE_NAME cs0 = Some c)
    by (eexists; apply lookup_open_same).
  destruct H0 as [c0 H0].
  destruct (network env (origin env +:+ "/")) as [r1|m1];
    destruct (network env (origin env +:+ "/index.html")) as [r2|m2].
  - erewrite open_present
      by (rewrite !lookup_put, H0; reflexivity).
    apply put_put_again.
  - erewrite open_present by (rewrite !lookup_put, H0; reflexivity).
    unfold Storage.put. rewrite map_map. apply map_ext. intros [n c].
    destruct (String.eqb n CACHE_NAME) eqn:E; repeat (simpl; rewrite ?E);
      [|reflexivity].
    f_equal. apply insert_insert_eq.
  - erewrite open_present by (rewrite !lookup_put, H0; reflexivity).
    unfold Storage.put. rewrite map_map. apply map_ext. intros [n c].
    destruct (String.eqb n CACHE_NAME) eqn:E; repeat (simpl; rewrite ?E);
      [|reflexivity].
    f_equal. apply insert_insert_eq.
  - subst cs0. apply open_open.
Qed.

End Lifecycle.

(** X10: install is idempotent on the stores. A second install against
    the same network leaves the storage exactly as the first did: the seeds
    are written over themselves, and a failed seeding leaves the static
    store as it was. *)
Theorem install_twice_same_stores env w :
  caches (snd (onInstall env (snd (onInstall env w))))
  = caches (snd (onInstall env w)).
Proof. rewrite !onInstall_seeded. apply seeded_stores_idem. Qed.

Section LifecycleTogether.

Implicit Types (cs : CacheStorage).

Lemma lookup_seeded_other env cs n :
  n <> CACHE_NAME ->
  Storage.lookup n (seeded_stores env cs) = Storage.lookup n cs.
Proof.
  intros Hne.
  assert (Hput : forall k r cs0,
             Storage.lookup n (Storage.put CACHE_NAME k r cs0)
             = Storage.lookup n cs0).
  { intros k r cs0. rewrite lookup_put.
    apply String.eqb_neq in Hne. rewrite Hne.
    now destruct (Storage.lookup n cs0). }
  unfold seeded_stores, seed_keys, STATIC_ASSETS.
  destruct (forallb (seed_ok env) ["/"; "/index.html"]);
    cbn [List.map fold_left];
    repeat match goal with
           | |- context [match network env ?k with _ => _ end] =>
               destruct (network env k)
           end;
    rewrite ?Hput; now apply lookup_open_other.
Qed.

Lemma lookup_seeded_static env cs :
  is_Some (Storage.lookup CACHE_NAME (seeded_stores env cs)).
Proof.
  unfold seeded_stores, seed_keys, STATIC_ASSETS.
  destruct (forallb (seed_ok env) ["/"; "/index.html"]);
    cbn [List.map fold_left];
    repeat match goal with
           | |- context [match network env ?k with _ => _ end] =>
               destruct (network env k)
           end;
    rewrite ?lookup_put, lookup_open_same; simpl; eauto.
Qed.

(** A loop whose body writes the lines [ls a] writes them in order. *)
Lemma for_each_console_lines {A} (f : A -> SW unit) (ls : A -> list LogLine) :
  (forall a w, console (snd (f a w)) = console w ++ ls a) ->
  forall l w,
    console (snd (for_each f l w)) = console w ++ List.concat (List.map ls l).
Proof.
  intros Hf. induction l as [|a l IH]; intros w.
  - simpl. symmetry. apply app_nil_r.
  - cbn [for_each List.map List.concat]. unfold bind.
    specialize (Hf a w). destruct (f a w) as [u w']. cbn [snd] in Hf.
    rewrite IH, Hf. symmetry. apply app_assoc.
Qed.

Lemma concat_singletons {A B} (f : A -> B) (l : list A) :
  List.concat (List.map (fun a => [f a]) l) = List.map f l.
Proof. induction l; simpl; [reflexivity | now f_equal]. Qed.

End LifecycleTogether.

(** X11: an update of the worker, install and then activate, leaves a
    static store that holds what install put into it, leaves the runtime
    store as it was before the update, and leaves no store of another
    name. *)
Theorem activate_after_install env w :
  let w1 := snd (onInstall env w) in
  let w2 := snd (onActivate w1) in
  is_Some (Storage.lookup CACHE_NAME (caches w2)) /\
  Storage.lookup CACHE_NAME (caches w2)
  = Storage.lookup CACHE_NAME (caches w1) /\
  Storage.lookup RUNTIME_CACHE (caches w2)
  = Storage.lookup RUNTIME_CACHE (caches w) /\
  (forall n, In n (Storage.keys (caches w2)) ->
             n = CACHE_NAME \/ n = RUNTIME_CACHE).
Proof.
  intros w1 w2. subst w1 w2.
  rewrite onActivate_caches, onInstall_seeded.
  rewrite !(lookup_filter isCurrentCache) by reflexivity.
  split; [apply lookup_seeded_static|]. split; [reflexivity|]. split.
  - apply lookup_seeded_other. discriminate.
  - intros n Hin. apply in_map_iff in Hin as ([n0 c] & <- & Hin).
    apply filter_In in Hin as [_ Hin]. now apply isCurrentCache_spec.
Qed.

(** X12: activate enumerates the stores, deletes the ones whose name is
    not current, in the order of the enumeration and with a line on the
    console for each, and claims the clients after that. *)
Theorem activate_deletes_then_claims w :
  let stale :=
    List.filter (fun n => negb (isCurrentCache n))
      (Storage.keys (caches w)) in
  performs onActivate w
    (ECachesKeys :: List.map ECachesDelete stale ++ [EClientsClaim]) /\
  console (snd (onActivate w))
  = console w ++
    mkLog LLog "[SW] Activating v5..." [] ::
    List.map (fun n => mkLog LLog "[SW] Deleting old cache:" [AStr n]) stale.
Proof.
  intros stale.
  assert (Hs : stale =
    List.filter (fun n => negb (String.eqb n CACHE_NAME) &&
                          negb (String.eqb n RUNTIME_CACHE))
      (Storage.keys (caches w))).
  { subst stale. apply filter_ext. intros n. unfold isCurrentCache.
    apply negb_orb. }
  rewrite Hs. clear Hs stale.
  unfold performs, onActivate. unfold bind at 1 2 3 5 6 7. sw_unfold.
  cbn [fst snd caches console trace].
  match goal with
  | |- context [for_each ?f ?l ?w'] =>
      pose proof (for_each_trace f (fun n => [ECachesDelete n])
                    (fun _ _ => eq_refl) l w') as Ht;
      pose proof (for_each_console_lines f
                    (fun n => [mkLog LLog "[SW] Deleting old cache:" [AStr n]])
                    (fun _ _ => eq_refl) l w') as Hc;
      destruct (for_each f l w') as [u w'']
  end.
  cbn [fst snd caches console trace] in *.
  rewrite Ht, Hc, !concat_singletons, <- !app_assoc. split; reflexivity.
Qed.

(** ** After a manual recovery *)

Lemma onMessage_clear_caches w :
  caches (snd (onMessage "clearCache" w)) = [].
Proof.
  unfold onMessage. cbn [String.eqb Ascii.eqb Bool.eqb].
  sw_unfold. cbn [fst snd caches console trace].
  match goal with
  | |- context [for_each ?f ?l ?w'] =>
      rewrite (for_each_caches f Storage.delete (fun _ _ => eq_refl) l w')
  end.
  cbn [caches]. apply delete_all_keys.
Qed.

(** A static asset that is in no store is looked up and then fetched. *)
Lemma static_miss_goes_to_network env request w :
  classify request = StaticAsset ->
  Storage.match_ (cache_key request) (caches w) = None ->
  fst (onFetch env request w) =
    Some match network env (href (url request)) with
         | Resolved response => response
         | Rejected _ => Response_new "Asset unavailable" 503 []
         end /\
  exists es, performs (onFetch env request) w es /\
             List.filter is_fetch es = [EFetch (href (url request))].
Proof.
  intros Hc Hmiss. revert Hc.
  unfold onFetch, classify; sw_unfold.
  repeat (split_branch; cbn [fst snd caches console trace] in * );
    intros Hc; try congruence;
    (split; [reflexivity|]);
    rewrite <- ?app_assoc; eexists; (split; [reflexivity|]); reflexivity.
Qed.

(** X13: after the [clearCache] message no answer comes from a store: a
    request for a static asset, whatever the stores held before the
    message, is fetched from the network, and it is answered with the
    response of the network or, when the fetch is rejected, with the 503
    of the asset branch. *)
Theorem cleared_cache_is_refetched env request w :
  classify request = StaticAsset ->
  let w1 := snd (onMessage "clearCache" w) in
  fst (onFetch env request w1) =
    Some match network env (href (url request)) with
         | Resolved response => response
         | Rejected _ => Response_new "Asset unavailable" 503 []
         end /\
  exists es, performs (onFetch env request) w1 es /\
             List.filter is_fetch es = [EFetch (href (url request))].
Proof.
  intros Hc w1. apply static_miss_goes_to_network; [exact Hc|].
  subst w1. now rewrite onMessage_clear_caches.
Qed.

(** An asset that the runtime store serves without the network is
    fetched again once the stores are cleared. *)
Lemma cleared_cache_is_refetched_witness :
  let request := Sample.subresource (Sample.plain "/assets/app-abc123.js") in
  let w := snd (onFetch (Sample.env_up (Sample.page 200)) request
                  Sample.fresh) in
  let w1 := snd (onMessage "clearCache" w) in
  fst (onFetch Sample.env_down request w) = Some (Sample.page 200) /\
  fst (onFetch Sample.env_down request w1)
  = Some (Response_new "Asset unavailable" 503 []).
Proof.
  intros request w w1. split; [reflexivity|].
  destruct (cleared_cache_is_refetched Sample.env_down request w eq_refl)
    as [H _].
  exact H.
Defined.

(** ** What the tables match *)

Section StringTests.

Lemma prefix_app p : forall s,
  String.prefix p s = true <-> exists t, s = p +:+ t.
Proof.
  induction p as [|a p IH]; intros s; simpl.
  - destruct s; split; eauto.
  - destruct s as [|b s]; [split; [discriminate | intros [t H]; discriminate]|].
    simpl. destruct (Ascii.ascii_dec a b) as [E | Hne].
    + subst b. rewrite IH. split; intros [t H]; exists t.
      * now rewrite H.
      * now injection H.
    + split; [discriminate|]. intros [t H]. injection H as H1 H2.
      congruence.
Qed.

Lemma includes_app sub : forall s,
  includes s sub = true <-> exists a b, s = a +:+ sub +:+ b.
Proof.
  induction s as [|c s IH]; cbn [includes].
  - rewrite orb_false_r, prefix_app. split.
    + intros [t H]. exists "", t. exact H.
    + intros (a & b & H). destruct a; [eauto|discriminate].
  - rewrite orb_true_iff, prefix_app, IH. split.
    + intros [[t H] | (a & b & H)].
      * exists "", t. exact H.
      * exists (String c a), b. simpl. now rewrite H.
    + intros (a & b & H). destruct a as [|c' a]; simpl in H.
      * left. eauto.
      * right. injection H as _ H. eauto.
Qed.

End StringTests.

(** X14: [isCaptiveProbe] holds exactly of the host names that have one
    of the seven probe domains somewhere inside them, with any text before
    and after it: a subdomain of a probe domain, and equally a foreign
    domain that has the probe domain as a label prefix or suffix. *)
Theorem isCaptiveProbe_iff_contains url :
  isCaptiveProbe url = true <->
  exists host before after,
    In host probeHosts /\ hostname url = before +:+ host +:+ after.
Proof.
  rewrite isCaptiveProbe_spec. split.
  - intros (host & Hin & H). apply includes_app in H as (a & b & H). eauto.
  - intros (host & a & b & Hin & H). exists host. split; [exact Hin|].
    apply includes_app. eauto.
Qed.

Section SuffixTests.

Lemma substring_all s : String.substring 0 (String.length s) s = s.
Proof. induction s as [|c s IH]; simpl; [reflexivity | now rewrite IH]. Qed.

Lemma substring_after p suf :
  String.substring (String.length p) (String.length suf) (p +:+ suf) = suf.
Proof.
  induction p as [|c p IH]; simpl; [apply substring_all | exact IH].
Qed.

Lemma length_app_string p s :
  String.length (p +:+ s) = (String.length p + String.length s)%nat.
Proof. induction p as [|c p IH]; simpl; [reflexivity | now rewrite IH]. Qed.

Lemma substring_split : forall s k,
  (k <= String.length s)%nat ->
  s = String.substring 0 k s +:+
      String.substring k (String.length s - k) s.
Proof.
  induction s as [|c s IH]; intros k Hk.
  - simpl in Hk. assert (k = 0%nat) by lia. subst. reflexivity.
  - destruct k as [|k].
    + simpl. now rewrite substring_all.
    + simpl in Hk. cbn [String.substring String.length Nat.sub].
      change (String c s =
              String c (String.substring 0 k s +:+
                        String.substring k (String.length s - k) s)).
      f_equal. apply IH. lia.
Qed.

Lemma endsWith_app s suf :
  endsWith s suf = true <-> exists p, s = p +:+ suf.
Proof.
  unfold endsWith. rewrite andb_true_iff, Nat.leb_le, String.eqb_eq. split.
  - intros [Hle H].
    exists (String.substring 0 (String.length s - String.length suf) s).
    set (m := String.length suf) in *.
    pose proof (substring_split s (String.length s - m) ltac:(lia)) as Hs.
    replace (String.length s - (String.length s - m))%nat with m in Hs
      by lia.
    now rewrite H in Hs.
  - intros [p ->]. rewrite length_app_string. split; [lia|].
    replace (String.length p + String.length suf - String.length suf)%nat
      with (String.length p) by lia.
    apply substring_after.
Qed.

End SuffixTests.

(** X15: the static-asset branch is guarded by the path alone. The guard
    holds exactly of the paths that end in a dot and one of the thirteen
    extensions, and of the paths that begin with [/assets/]. *)
Theorem static_asset_guard_iff path :
  matchesStaticExtension path || startsWith path "/assets/" = true <->
  (exists stem ext, In ext staticExtensions /\ path = stem +:+ "." +:+ ext) \/
  (exists rest, path = "/assets/" +:+ rest).
Proof.
  rewrite orb_true_iff. unfold matchesStaticExtension, startsWith.
  rewrite existsb_exists, prefix_app. split.
  - intros [(ext & Hin & H) | H]; [left | now right].
    apply endsWith_app in H as [stem H]. eauto.
  - intros [(stem & ext & Hin & H) | H]; [left | now right].
    exists ext. split; [exact Hin|]. apply endsWith_app. eauto.
Qed.

(** * The first revision *)

(** X16: in the first revision an HTML document or a request of the
    default class whose fetch is rejected, and for which the stores have
    neither the request nor (for a document) [/index.html], is answered
    with nothing: [respondWith] is called with a promise that resolves
    with no response. *)
Theorem v1_offline_without_cache_gives_nothing env request w m :
  V1.classify request = HtmlDocument \/ V1.classify request = Default ->
  network env (href (url request)) = Rejected m ->
  Storage.match_ (cache_key request) (caches w) = None ->
  Storage.match_ (origin env +:+ "/index.html") (caches w) = None ->
  fst (V1.onFetch env request w) = Some None.
Proof.
  intros Hc Hn Hreq Hidx. revert Hc.
  unfold V1.onFetch, V1.classify, V1.put_runtime; sw_unfold. rewrite Hn.
  repeat (split_branch; cbn [fst snd caches console trace] in * );
    intros [Hc | Hc]; try discriminate; congruence.
Qed.

(** The root document with the network down and no store. *)
Lemma v1_offline_without_cache_gives_nothing_witness :
  fst (V1.onFetch Sample.env_down (Sample.navigate (Sample.plain "/"))
         Sample.fresh)
  = Some None.
Proof.
  apply (v1_offline_without_cache_gives_nothing Sample.env_down
           (Sample.navigate (Sample.plain "/")) Sample.fresh
           "Failed to fetch"); try reflexivity.
  left. reflexivity.
Defined.

(** X17: the first revision knows no hotspot URLs. A login redirect of
    the gateway that it takes for an HTML document and that the network
    answers with status 200 is written into its runtime store, under the
    URL with its session parameters; the fifth revision passes the same
    response on and writes nothing. *)
Theorem v1_keeps_hotspot_pages env request w response :
  isHotspotURL (url request) = true ->
  V1.classify request = HtmlDocument ->
  network env (href (url request)) = Resolved response ->
  status response = 200 ->
  (fst (V1.onFetch env request w) = Some (Some response) /\
   exists c,
     Storage.lookup V1.RUNTIME_CACHE (caches (snd (V1.onFetch env request w)))
     = Some c /\
     c !! cache_key request = Some response) /\
  (fst (onFetch env request w) = Some response /\
   caches (snd (onFetch env request w)) = caches w).
Proof.
  intros Hh Hc Hn Hs. apply Z.eqb_eq in Hs. split.
  - revert Hc.
    unfold V1.onFetch, V1.classify, V1.put_runtime; sw_unfold.
    rewrite Hn, Hs.
    repeat (split_branch; cbn [fst snd caches console trace] in * );
      intros Hc; try discriminate.
    all: split; [reflexivity | apply lookup_open_put].
  - assert (Hg : negb (String.eqb (method request) "GET") = false /\
                 negb (startsWith (protocol (url request)) "http") = false).
    { revert Hc. unfold V1.classify.
      destruct (negb (String.eqb (method request) "GET")); [discriminate|].
      destruct (negb (startsWith (protocol (url request)) "http"));
        [discriminate|]. auto. }
    destruct Hg as [Hg1 Hg2].
    unfold onFetch; sw_unfold. rewrite Hg1, Hg2, Hh, Hn.
    destruct (negb (String.eqb (search (url request)) ""));
      cbn [fst snd caches console trace]; split; reflexivity.
Qed.

(** The login redirect of the gateway, answered with a page of status
    200. *)
Lemma v1_keeps_hotspot_pages_witness :
  let request := Sample.navigate Sample.login_dst in
  let env := Sample.env_up (Sample.page 200) in
  Storage.match_ (cache_key request)
    (caches (snd (V1.onFetch env request Sample.fresh)))
  = Some (Sample.page 200) /\
  caches (snd (onFetch env request Sample.fresh)) = [].
Proof.
  intros request env.
  destruct (v1_keeps_hotspot_pages env request Sample.fresh (Sample.page 200)
              eq_refl eq_refl eq_refl eq_refl) as [_ [_ H5]].
  split; [reflexivity | exact H5].
Defined.

(** X18: away from what the later revisions added, the first and the
    fifth revision send a request down the same branch: a request that is
    no hotspot URL, goes to no probe host and does not end in [.ico] has
    the same class in both. *)
Theorem v1_and_v5_classes_agree request :
  isHotspotURL (url request) = false ->
  isCaptiveProbe (url request) = false ->
  endsWith (pathname (url request)) ".ico" = false ->
  V1.classify request = classify request.
Proof.
  intros Hh Hp Hico. unfold V1.classify, classify. rewrite Hh, Hp.
  assert (E : V1.matchesStaticExtension (pathname (url request))
              = matchesStaticExtension (pathname (url request))).
  { unfold V1.matchesStaticExtension, matchesStaticExtension,
      V1.staticExtensions, staticExtensions.
    cbn [existsb]. change ("." +:+ "ico") with ".ico". rewrite Hico.
    now rewrite !orb_false_r. }
  now rewrite E.
Qed.

(** A page of the portal is an HTML document for both. *)
Lemma v1_and_v5_classes_agree_witness :
  V1.classify (Sample.navigate (Sample.plain "/packages"))
  = classify (Sample.navigate (Sample.plain "/packages")) /\
  classify (Sample.navigate (Sample.plain "/packages")) = HtmlDocument.
Proof.
  split; [|reflexivity].
  apply (v1_and_v5_classes_agree (Sample.navigate (Sample.plain "/packages")));
    reflexivity.
Defined.

(** * The manifest generator *)

Example assets_of_built_index :
  AssetManifest.assets
    ("<script type=" +:+ dq +:+ "module" +:+ dq +:+ " src=" +:+ dq +:+
     "/assets/index-abc123.js" +:+ dq +:+ "></script><link href='" +:+
     "/assets/index-def456.css' rel=" +:+ dq +:+ "stylesheet" +:+ dq +:+ ">")
  = ["/"; "/index.html"; "/assets/index-abc123.js";
     "/assets/index-def456.css"].
Proof. reflexivity. Qed.

Example assets_unclosed_reference :
  AssetManifest.assets ("<a href=" +:+ dq +:+ "/assets/logo.png")
  = ["/"; "/index.html"].
Proof. reflexivity. Qed.

Example assets_empty_name :
  AssetManifest.assets ("src=" +:+ dq +:+ "/assets/" +:+ dq)
  = ["/"; "/index.html"].
Proof. reflexivity. Qed.

Section ManifestFacts.

Import AssetManifest.

Lemma app_cons c a b : String c a +:+ b = String c (a +:+ b).
Proof. reflexivity. Qed.

Lemma app_empty b : "" +:+ b = b.
Proof. reflexivity. Qed.

Lemma string_app_assoc a b c : (a +:+ b) +:+ c = a +:+ (b +:+ c).
Proof.
  induction a as [|x a IH]; [reflexivity|].
  rewrite !app_cons. now rewrite IH.
Qed.

Lemma string_app_empty_r a : a +:+ "" = a.
Proof.
  induction a as [|x a IH]; [reflexivity|]. rewrite app_cons. now rewrite IH.
Qed.

Lemma take_run_quote_free s :
  quote_free (fst (take_run s)) = true.
Proof.
  induction s as [|c s IH]; [reflexivity|]. simpl.
  destruct (is_quote c) eqn:E; [reflexivity|].
  destruct (take_run s) as [run rest]. simpl in *. now rewrite E.
Qed.

Lemma take_run_length s :
  (String.length (snd (take_run s)) <= String.length s)%nat.
Proof.
  induction s as [|c s IH]; [simpl; lia|]. simpl.
  destruct (is_quote c); [simpl; lia|].
  destruct (take_run s) as [run rest]. simpl in *. lia.
Qed.

Lemma take_run_stops run q rest :
  quote_free run = true -> is_quote q = true ->
  take_run (run +:+ String q rest) = (run, String q rest).
Proof.
  intros Hr Hq. induction run as [|c run IH].
  - rewrite app_empty. simpl. now rewrite Hq.
  - rewrite app_cons. simpl in *. apply andb_true_iff in Hr as [Hc Hr].
    apply negb_true_iff in Hc. rewrite Hc, (IH Hr). reflexivity.
Qed.

Lemma drop_prefix_length p : forall s t,
  drop_prefix p s = Some t ->
  (String.length t <= String.length s)%nat.
Proof.
  induction p as [|a p IH]; intros s t; simpl.
  - intros [= ->]. lia.
  - destruct s as [|b s]; [discriminate|].
    destruct (Ascii.eqb a b); [|discriminate].
    intros H. apply IH in H. simpl. lia.
Qed.

Lemma drop_prefix_app p : forall t, drop_prefix p (p +:+ t) = Some t.
Proof.
  induction p as [|a p IH]; intros t; [reflexivity|].
  rewrite app_cons. simpl. now rewrite Ascii.eqb_refl.
Qed.

Lemma drop_prefix_Some p : forall s t,
  drop_prefix p s = Some t -> s = p +:+ t.
Proof.
  induction p as [|a p IH]; intros s t; simpl.
  - now intros [= ->].
  - destruct s as [|b s]; [discriminate|].
    destruct (Ascii.eqb a b) eqn:E; [|discriminate].
    apply Ascii.eqb_eq in E. subst b. intros H.
    rewrite app_cons. f_equal. now apply IH.
Qed.

Lemma quote_free_app a b :
  quote_free (a +:+ b) = quote_free a && quote_free b.
Proof.
  induction a as [|c a IH]; [reflexivity|].
  rewrite app_cons. simpl. rewrite IH. apply andb_assoc.
Qed.

(** What a match captures and how much text it uses up. *)
Lemma match_here_Some s capture rest :
  match_here s = Some (capture, rest) ->
  asset_path capture = true /\
  (String.length rest < String.length s)%nat.
Proof.
  unfold match_here. destruct (drop_prefix "/assets/" s) as [t|] eqn:Ed;
    [|discriminate].
  pose proof (take_run_quote_free t) as Hq.
  pose proof (take_run_length t) as Hl.
  apply drop_prefix_length in Ed.
  destruct (take_run t) as [[|c run] [|q rest0]]; try discriminate.
  intros [= <- <-]. simpl in Hq, Hl. split; [|simpl in *; lia].
  unfold asset_path. rewrite drop_prefix_app. exact Hq.
Qed.

(** A reference to an asset path, closed by a quote, is matched. *)
Lemma match_here_reference p q rest :
  asset_path p = true -> is_quote q = true ->
  match_here (p +:+ String q rest) = Some (p, rest).
Proof.
  unfold asset_path, match_here. intros Hp Hq.
  destruct (drop_prefix "/assets/" p) as [[|c r]|] eqn:Ed; try discriminate.
  apply drop_prefix_Some in Ed. subst p.
  rewrite string_app_assoc, drop_prefix_app.
  now rewrite (take_run_stops _ _ _ Hp Hq).
Qed.

(** Fuel beyond the length of the text changes nothing. *)
Lemma scan_fuel : forall f1 f2 s,
  (String.length s <= f1)%nat -> (String.length s <= f2)%nat ->
  scan f1 s = scan f2 s.
Proof.
  induction f1 as [|f1 IH]; intros f2 s H1 H2.
  - destruct s; [|simpl in H1; lia]. now destruct f2.
  - destruct s as [|c s]; [now destruct f2|].
    destruct f2 as [|f2]; [simpl in H2; lia|].
    simpl in H1, H2. simpl.
    destruct (is_quote c); [|apply IH; lia].
    destruct (match_here s) as [[capture rest]|] eqn:Em; [|apply IH; lia].
    apply match_here_Some in Em as [_ Hl].
    f_equal. apply IH; lia.
Qed.

Lemma scan_skip c s :
  is_quote c = false ->
  scan (String.length (String c s)) (String c s)
  = scan (String.length s) s.
Proof. intros H. simpl. now rewrite H. Qed.

Lemma scan_text text : forall s,
  quote_free text = true ->
  scan (String.length (text +:+ s)) (text +:+ s)
  = scan (String.length s) s.
Proof.
  induction text as [|c text IH]; intros s Hq; [reflexivity|].
  simpl in Hq. apply andb_true_iff in Hq as [Hc Hq].
  apply negb_true_iff in Hc.
  rewrite app_cons, scan_skip by exact Hc. now apply IH.
Qed.

Lemma scan_reference q1 p q2 rest :
  is_quote q1 = true -> asset_path p = true -> is_quote q2 = true ->
  scan (String.length (String q1 (p +:+ String q2 rest)))
    (String q1 (p +:+ String q2 rest))
  = p :: scan (String.length rest) rest.
Proof.
  intros H1 Hp H2. cbn [String.length scan]. rewrite H1.
  rewrite (match_here_reference _ _ _ Hp H2). f_equal.
  apply scan_fuel; [|lia].
  rewrite length_app_string. simpl. lia.
Qed.

End ManifestFacts.

(** X19: what the generator adds to the two fixed entries of the
    manifest are asset paths: each begins with [/assets/], has at least
    one character after it and holds no quote; so each satisfies the guard
    of the static-asset branch of the worker. *)
Theorem generated_entries_are_asset_paths indexHtml :
  exists found,
    AssetManifest.assets indexHtml = "/" :: "/index.html" :: found /\
    forall p, In p found ->
      AssetManifest.asset_path p = true /\
      (exists c rest, p = "/assets/" +:+ String c rest) /\
      AssetManifest.quote_free p = true /\
      startsWith p "/assets/" = true.
Proof.
  exists (AssetManifest.scan (String.length indexHtml) indexHtml).
  split; [reflexivity|].
  generalize (String.length indexHtml) as fuel. intros fuel.
  revert indexHtml. induction fuel as [|fuel IH]; intros s p; [intros []|].
  destruct s as [|c s]; [intros []|]. simpl.
  destruct (AssetManifest.is_quote c); [|apply IH].
  destruct (AssetManifest.match_here s) as [[capture rest]|] eqn:Em;
    [|apply IH].
  intros [<- | Hin]; [|now apply (IH rest)].
  apply match_here_Some in Em as [Hp _]. split; [exact Hp|].
  unfold AssetManifest.asset_path in Hp.
  destruct (AssetManifest.drop_prefix "/assets/" capture)
    as [[|a r]|] eqn:Ed; try discriminate.
  apply drop_prefix_Some in Ed. subst capture.
  split; [eauto|]. split.
  - rewrite quote_free_app. now rewrite Hp.
  - apply prefix_app. eauto.
Qed.

(** X20: the generator finds what the document refers to. For a document
    that is a sequence of references, each an asset path between two
    quotes after some text without quotes, with a last text without
    quotes, the manifest is the two fixed entries and then the paths, in
    the order of the document and with their repetitions. *)
Theorem generated_manifest_lists_references items tail :
  Forall (fun item =>
            match item with
            | (text, (q1, q2), p) =>
                AssetManifest.quote_free text = true /\
                AssetManifest.is_quote q1 = true /\
                AssetManifest.is_quote q2 = true /\
                AssetManifest.asset_path p = true
            end) items ->
  AssetManifest.quote_free tail = true ->
  AssetManifest.assets (AssetManifest.document items tail)
  = "/" :: "/index.html" :: List.map snd items.
Proof.
  intros Hitems Htail. unfold AssetManifest.assets. cbn [app]. do 2 f_equal.
  induction Hitems as [|[[text [q1 q2]] p] items (Ht & H1 & H2 & Hp) _ IH].
  - cbn [AssetManifest.document List.map].
    rewrite <- (string_app_empty_r tail).
    rewrite scan_text by exact Htail. reflexivity.
  - cbn [AssetManifest.document List.map snd].
    rewrite scan_text by exact Ht.
    rewrite scan_reference by assumption. now f_equal.
Qed.

(** A script of the bundle between double quotes and a stylesheet
    between single quotes. *)
Lemma generated_manifest_lists_references_witness :
  let dquote := ascii_of_nat 34 in
  let squote := ascii_of_nat 39 in
  AssetManifest.assets
    (AssetManifest.document
       [("<script src=", (dquote, dquote), "/assets/app-abc123.js");
        ("></script><link href=", (squote, squote), "/assets/app-def456.css")]
       ">")
  = ["/"; "/index.html"; "/assets/app-abc123.js"; "/assets/app-def456.css"].
Proof.
  intros dquote squote.
  apply (generated_manifest_lists_references
           [("<script src=", (dquote, dquote), "/assets/app-abc123.js");
            ("></script><link href=", (squote, squote),
             "/assets/app-def456.css")] ">").
  - repeat constructor.
  - reflexivity.
Defined.
